(** * demo-graph: the conversation turn of the LangGraph agent

    A shallow embedding of [src/nodes/conversation.ts],
    [src/nodes/fetch-user.ts], [src/state.ts], the provider registry and the
    OpenRouter service, followed by the properties the specification states
    about them.

    Conventions of the embedding
    - JavaScript strings are [string]; [toLowerCase] folds the letters A-Z,
      the only characters whose lower-case form is a letter of the trigger
      word of the memory write policy.
    - An optional field or parameter ([x?: T], [T | null], [T | undefined])
      is an [option T].
    - Every call that crosses the process boundary (store, chat provider,
      profile source, clock) is an oracle of the host; a call either
      returns or throws, and every call is recorded in a trace.
    - [await] is sequential composition: a turn has no internal
      parallelism. *)

From Stdlib Require Import String Ascii List ZArith Bool Lia.
From Stdlib Require Import Numbers.DecimalString.
From Stdlib Require Numbers.DecimalPos Numbers.DecimalZ.
Import ListNotations.
Open Scope list_scope.
Open Scope string_scope.

(* ===================================================================== *)
(** ** JavaScript string and array primitives used by the source *)
(* ===================================================================== *)

Module Js.

(** The line feed written ["\n"] in the source. *)
Definition LF : string := String "010"%char EmptyString.

(** [String.prototype.toLowerCase], on one code unit. *)
Definition lowerChar (c : ascii) : ascii :=
  let n := nat_of_ascii c in
  if (65 <=? n)%nat && (n <=? 90)%nat then ascii_of_nat (n + 32) else c.

(** [s.toLowerCase()] *)
Fixpoint toLowerCase (s : string) : string :=
  match s with
  | EmptyString => EmptyString
  | String c s' => String (lowerChar c) (toLowerCase s')
  end.

(** [s.startsWith(pat)] *)
Fixpoint startsWith (s pat : string) : bool :=
  match pat, s with
  | EmptyString, _ => true
  | String _ _, EmptyString => false
  | String p pat', String c s' => Ascii.eqb p c && startsWith s' pat'
  end.

(** [s.includes(pat)]: [pat] occurs in [s] at some position. *)
Fixpoint includes (s pat : string) : bool :=
  startsWith s pat ||
  match s with
  | EmptyString => false
  | String _ s' => includes s' pat
  end.

(** [xs.join(sep)] on an array of strings. *)
Fixpoint join (sep : string) (xs : list string) : string :=
  match xs with
  | [] => ""
  | [x] => x
  | x :: rest => x ++ sep ++ join sep rest
  end.

(** Truthiness of a [string | undefined]: [undefined] and [""] are falsy. *)
Definition truthy (o : option string) : bool :=
  match o with
  | Some s => negb (s =? "")
  | None => false
  end.

(** [xs.filter(Boolean)] on an array of [string | undefined]. *)
Fixpoint filterBoolean (xs : list (option string)) : list string :=
  match xs with
  | [] => []
  | Some s :: rest =>
      if s =? "" then filterBoolean rest else s :: filterBoolean rest
  | None :: rest => filterBoolean rest
  end.

(** [a ?? b] *)
Definition nullish {A : Type} (a : option A) (b : A) : A :=
  match a with Some x => x | None => b end.

(** [`${x}`] for a [string | undefined]: [undefined] prints as the word. *)
Definition interpolate (o : option string) : string :=
  match o with Some s => s | None => "undefined" end.

(** [`${n}`] for an integral number (no exponent below 1e21). *)
Definition numberToString (z : Z) : string :=
  NilZero.string_of_int (Z.to_int z).

End Js.

(* ===================================================================== *)
(** ** Data model *)
(* ===================================================================== *)

(** [BaseMessage._getType()] of the three message classes a turn sees. *)
Inductive MessageType := human | ai | system.

(** One block of a structured (non-string) message content. *)
Record ContentBlock := { block_type : string; block_text : string }.

(** [MessageContent = string | ContentBlock[]] *)
Inductive MessageContent :=
| Text (s : string)
| Blocks (bs : list ContentBlock).

Record BaseMessage := { getType : MessageType; content : MessageContent }.

Definition SystemMessage (prompt : string) : BaseMessage :=
  {| getType := system; content := Text prompt |}.

(** [src/types/patient.ts] *)
Record Address := {
  line1 : option string; city : option string; postcode : option string }.

Record Phone := { phone_type : string; number : string }.

Record Patient := {
  id : string;
  firstName : option string;
  lastName : option string;
  email : option string;
  dob : option string;
  gender : option string;
  address : option Address;
  phones : option (list Phone) }.

(** [interface MemoryItem] of [conversation.ts] *)
Record MemoryItem := { text : string; createdAt : string }.

(** An item returned by [store.search]; [value] is read through [item?.text],
    so a missing value is tolerated. *)
Record SearchItem := { value : option MemoryItem }.

Inductive JsError := Error (message : string).

(** How a call ends: it returns a value or throws. *)
Inductive Completion (A : Type) :=
| Returns (a : A)
| Throws (e : JsError).
Arguments Returns {A} a.
Arguments Throws {A} e.

(** The part of LangGraph's [BaseStore] the node consumes. *)
Record BaseStore := {
  search : list string -> nat -> Completion (option (list SearchItem));
  put : list string -> string -> MemoryItem -> Completion unit }.

(** [config.configurable] *)
Record Configurable := {
  model : option string;
  clientId : option string;
  systemPrompt : option string }.

Record LangGraphRunnableConfig := {
  configurable : option Configurable;
  store : option BaseStore }.

(** [src/state.ts]: [AgentState.State] and [AgentState.Update] *)
Record AgentStateType := {
  messages : list BaseMessage;
  user : option Patient }.

(** A key that is absent from an update is [None]. *)
Record AgentStateUpdate := {
  upd_messages : option (list BaseMessage);
  upd_user : option Patient }.

(** The update [{}]. *)
Definition emptyUpdate : AgentStateUpdate :=
  {| upd_messages := None; upd_user := None |}.

(** [process.env], the variables the sources read. *)
Record ProcessEnv := {
  OPENROUTER_API_KEY : option string;
  OPENROUTER_BASE_URL : option string;
  MODEL_NAME : option string;
  SYSTEM_PROMPT : option string;
  USE_MOCK_SEMBLE : option string }.

(** The options [getModel] passes to [new ChatOpenAI]. *)
Record ChatOpenAI := {
  chat_model : string;
  chat_apiKey : string;
  chat_baseURL : string }.

(** [class OpenRouterLLMService] *)
Record OpenRouterLLMService := { apiKey : string; baseURL : string }.

(** [interface ISembleService] *)
Record ISembleService := {
  getUser : string -> Completion (option Patient) }.

(** Calls that leave the process, in the order they are made. *)
Inductive Event :=
| StoreSearch (namespace : list string) (limit : nat)
| StorePut (namespace : list string) (key : string) (item : MemoryItem)
| LlmInvoke (llm : ChatOpenAI) (input : list BaseMessage)
| SembleGetUser (userId : string).

(** Module-level state of [providers/index.ts], the clock reads made so far
    and the trace of outside calls. *)
Record World := {
  sembleService : option ISembleService;
  llmService : option OpenRouterLLMService;
  clockReads : nat;
  trace : list Event }.

(** What the process runs on. *)
Record Host := {
  env : ProcessEnv;
  clock : nat -> Z;
  toISOString : Z -> string;
  provider : ChatOpenAI -> list BaseMessage -> Completion BaseMessage }.

(** The world right after the modules are loaded: both singletons [null]. *)
Definition initialWorld : World :=
  {| sembleService := None; llmService := None; clockReads := 0; trace := [] |}.

(* ===================================================================== *)
(** ** Effects: state, exceptions and [try]/[catch] *)
(* ===================================================================== *)

Definition M (A : Type) : Type := World -> Completion A * World.

Definition ret {A} (a : A) : M A := fun w => (Returns a, w).

Definition throw {A} (e : JsError) : M A := fun w => (Throws e, w).

Definition bind {A B} (c : M A) (k : A -> M B) : M B :=
  fun w =>
    match c w with
    | (Returns a, w') => k a w'
    | (Throws e, w') => (Throws e, w')
    end.

(** [try { c } catch { handler }]: effects made before the throw stay. *)
Definition tryCatch {A} (c : M A) (handler : JsError -> M A) : M A :=
  fun w =>
    match c w with
    | (Returns a, w') => (Returns a, w')
    | (Throws e, w') => handler e w'
    end.

Declare Scope js_scope.
Delimit Scope js_scope with js.
Notation "x <- c ;; k" := (bind c (fun x => k))
  (at level 61, c at next level, right associativity) : js_scope.
Notation "c ;; k" := (bind c (fun _ => k))
  (at level 61, right associativity) : js_scope.
Open Scope js_scope.

Definition emit (e : Event) : M unit :=
  fun w =>
    (Returns tt,
     {| sembleService := sembleService w; llmService := llmService w;
        clockReads := clockReads w; trace := (trace w ++ [e])%list |}).

(** Completing an outside call whose outcome the oracle has fixed. *)
Definition complete {A} (r : Completion A) : M A := fun w => (r, w).

(** [xs.at(-1)] *)
Fixpoint at_last {A} (xs : list A) : option A :=
  match xs with
  | [] => None
  | [x] => Some x
  | _ :: rest => at_last rest
  end.

(* ===================================================================== *)
(** ** The sources *)
(* ===================================================================== *)

Section Sources.

Variable host : Host.

(** *** [src/services/llm/openrouter.service.ts] *)

Definition DEFAULT_MODEL : string := "google/gemini-2.5-flash-lite".
Definition DEFAULT_BASE_URL : string := "https://openrouter.ai/api/v1".

(** [new OpenRouterLLMService()]: the constructor. *)
Definition newOpenRouterLLMService : Completion OpenRouterLLMService :=
  let key := OPENROUTER_API_KEY (env host) in
  if negb (Js.truthy key) then
    Throws (Error "OPENROUTER_API_KEY environment variable is required.")
  else
    Returns {| apiKey := Js.nullish key "";
               baseURL := Js.nullish (OPENROUTER_BASE_URL (env host))
                                     DEFAULT_BASE_URL |}.

(** [OpenRouterLLMService.getModel(modelName?)] *)
Definition getModel (svc : OpenRouterLLMService) (modelName : option string)
  : ChatOpenAI :=
  {| chat_model :=
       Js.nullish modelName (Js.nullish (MODEL_NAME (env host)) DEFAULT_MODEL);
     chat_apiKey := apiKey svc;
     chat_baseURL := baseURL svc |}.

(** [llm.invoke(input)]: the one call to the chat provider. *)
Definition invoke (llm : ChatOpenAI) (input : list BaseMessage)
  : M BaseMessage :=
  emit (LlmInvoke llm input) ;;
  complete (provider host llm input).

(** *** [src/services/semble/mock.service.ts], [real.service.ts]

    The mock waits 500 ms before it answers; the delay has no counterpart
    here. *)

Definition MockSembleService : ISembleService :=
  {| getUser := fun userId =>
       Returns (Some
         {| id := userId;
            firstName := Some "John";
            lastName := Some "Doe";
            email := Some "john.doe@example.com";
            dob := Some "1985-05-15";
            gender := Some "Male";
            address := Some {| line1 := Some "123 Baker Street";
                               city := Some "London";
                               postcode := Some "NW1 6XE" |};
            phones := Some [ {| phone_type := "mobile";
                                number := "+447700900123" |} ] |}) |}.

Definition RealSembleService : ISembleService :=
  {| getUser := fun _ =>
       Throws (Error "Real Semble integration not implemented yet") |}.

(** *** [src/providers/llm.provider.ts], [semble.provider.ts] *)

Definition createLLMService : Completion OpenRouterLLMService :=
  newOpenRouterLLMService.

Definition createSembleService : ISembleService :=
  let useMock :=
    match USE_MOCK_SEMBLE (env host) with
    | Some s => negb (s =? "false")
    | None => true
    end in
  if useMock then MockSembleService else RealSembleService.

(** *** [src/providers/index.ts]: the singleton registry *)

Definition getSembleService : M ISembleService :=
  fun w =>
    match sembleService w with
    | Some s => (Returns s, w)
    | None =>
        let s := createSembleService in
        (Returns s,
         {| sembleService := Some s; llmService := llmService w;
            clockReads := clockReads w; trace := trace w |})
    end.

Definition getLLMService : M OpenRouterLLMService :=
  fun w =>
    match llmService w with
    | Some s => (Returns s, w)
    | None =>
        match createLLMService with
        | Returns s =>
            (Returns s,
             {| sembleService := sembleService w; llmService := Some s;
                clockReads := clockReads w; trace := trace w |})
        | Throws e => (Throws e, w)
        end
    end.

(** *** [src/state.ts]: reducers *)

(** Modelled from the spec: [messagesStateReducer] is imported from
    [@langchain/langgraph] and is not part of the sources; the data model
    describes it as an append-merge ("new messages are concatenated to
    existing, never replacing"). *)
Definition messagesStateReducer (current update : list BaseMessage)
  : list BaseMessage :=
  (current ++ update)%list.

(** [reducer: (x, y) => y ?? x] of the [user] channel. *)
Definition userReducer (x y : option Patient) : option Patient :=
  match y with
  | Some p => Some p
  | None => x
  end.

(** Modelled from the spec: how the state container merges a node's update
    is LangGraph's and not part of the sources; it "merges returned deltas
    via the reducers": each channel the update names goes through its
    reducer, a channel it does not name keeps its value. *)
Definition applyUpdate (s : AgentStateType) (u : AgentStateUpdate)
  : AgentStateType :=
  {| messages :=
       match upd_messages u with
       | Some ms => messagesStateReducer (messages s) ms
       | None => messages s
       end;
     user := userReducer (user s) (upd_user u) |}.

(** *** [src/nodes/conversation.ts] *)

Definition DEFAULT_SYSTEM_PROMPT : string := "You are a helpful assistant.".

Definition getMemoryNamespace (clientId : string) : list string :=
  ["memories"; clientId].

Definition getSystemPrompt (systemPrompt : option string) : string :=
  Js.nullish systemPrompt
    (Js.nullish (SYSTEM_PROMPT (env host)) DEFAULT_SYSTEM_PROMPT).

(** The array literal of lines 68-73, before [.filter(Boolean)]. *)
Definition userDetailLines (u : Patient) : list (option string) :=
  [ Some ("User Name: " ++ Js.interpolate (firstName u) ++ " "
                        ++ Js.interpolate (lastName u));
    (if Js.truthy (email u)
     then Some ("Email: " ++ Js.interpolate (email u)) else None);
    (if Js.truthy (dob u)
     then Some ("DOB: " ++ Js.interpolate (dob u)) else None);
    (if Js.truthy (gender u)
     then Some ("Gender: " ++ Js.interpolate (gender u)) else None) ].

(** The text of the message [createSystemMessage] builds. *)
Definition systemPromptText (memories : option string) (u : option Patient)
    (systemPrompt : option string) : string :=
  let prompt := getSystemPrompt systemPrompt in
  let prompt :=
    match u with
    | Some u =>
        let userDetails :=
          Js.join Js.LF (Js.filterBoolean (userDetailLines u)) in
        prompt ++ Js.LF ++ Js.LF
          ++ "Here is some information about the user you are talking to:"
          ++ Js.LF ++ userDetails
    | None => prompt
    end in
  if Js.truthy memories then
    prompt ++ Js.LF ++ Js.LF ++ "What you remember about this user:"
      ++ Js.LF ++ Js.interpolate memories
  else prompt.

Definition createSystemMessage (memories : option string)
    (u : option Patient) (systemPrompt : option string) : BaseMessage :=
  SystemMessage (systemPromptText memories u systemPrompt).

(** [config.configurable?.clientId ?? "default"] (line 105). *)
Definition resolveClientId (config : LangGraphRunnableConfig) : string :=
  Js.nullish
    (match configurable config with
     | Some c => clientId c
     | None => None
     end)
    "default".

(** The bullet list built at lines 117-127 from the items of a search. *)
Definition formatMemories (memories : list SearchItem) : string :=
  let memoriesText :=
    Js.join (Js.LF ++ "- ")
      (Js.filterBoolean
         (map (fun m => match value m with
                        | Some item => Some (text item)
                        | None => None
                        end) memories)) in
  if Js.truthy (Some memoriesText) then "- " ++ memoriesText
  else memoriesText.

(** Lines 107-132: retrieval of the long-term memories. *)
Definition retrieveMemories (config : LangGraphRunnableConfig)
    (clientId : string) : M string :=
  match store config with
  | Some st =>
      tryCatch
        (let namespace := getMemoryNamespace clientId in
         memories <- (emit (StoreSearch namespace 10) ;;
                      complete (search st namespace 10)) ;;
         match memories with
         | Some ms =>
             if (0 <? List.length ms)%nat then ret (formatMemories ms)
             else ret ""
         | None => ret ""
         end)
        (fun _ => ret "")
  | None => ret ""
  end.

(** [Date.now()] and [new Date()]: each reads the system clock once. *)
Definition readClock : M Z :=
  fun w =>
    (Returns (clock host (clockReads w)),
     {| sembleService := sembleService w; llmService := llmService w;
        clockReads := S (clockReads w); trace := trace w |}).

(** Lines 143-145: the text the write policy looks at. *)
Definition examinedContent (msgs : list BaseMessage) : string :=
  match at_last msgs with
  | Some lastMessage =>
      match content lastMessage with
      | Text s => s
      | Blocks _ => ""
      end
  | None => ""
  end.

(** Lines 141-161: the memory write policy. *)
Definition storeMemory (state : AgentStateType)
    (config : LangGraphRunnableConfig) (clientId : string) : M unit :=
  match store config with
  | Some st =>
      let content := examinedContent (messages state) in
      if Js.includes (Js.toLowerCase content) "remember" then
        tryCatch
          (let namespace := getMemoryNamespace clientId in
           now <- readClock ;;
           let memoryId := "mem_" ++ Js.numberToString now in
           date <- readClock ;;
           let memoryItem :=
             {| text := content; createdAt := toISOString host date |} in
           emit (StorePut namespace memoryId memoryItem) ;;
           complete (put st namespace memoryId memoryItem))
          (fun _ => ret tt)
      else ret tt
  | None => ret tt
  end.

Definition conversationNode (state : AgentStateType)
    (config : LangGraphRunnableConfig) : M AgentStateUpdate :=
  let modelName :=
    match configurable config with Some c => model c | None => None end in
  svc <- getLLMService ;;
  let llm := getModel svc modelName in
  let clientId := resolveClientId config in
  memoriesText <- retrieveMemories config clientId ;;
  let systemPrompt :=
    match configurable config with
    | Some c => systemPrompt c
    | None => None
    end in
  let systemMessage :=
    createSystemMessage (Some memoriesText) (user state) systemPrompt in
  response <- invoke llm (systemMessage :: messages state) ;;
  storeMemory state config clientId ;;
  ret {| upd_messages := Some [response]; upd_user := None |}.

(** *** [src/nodes/fetch-user.ts] *)

Definition fetchUserNode (state : AgentStateType)
    (config : LangGraphRunnableConfig) : M AgentStateUpdate :=
  sembleService <- getSembleService ;;
  let clientId :=
    match configurable config with
    | Some c => clientId c
    | None => None
    end in
  if negb (Js.truthy clientId) then ret emptyUpdate
  else
    tryCatch
      (u <- (emit (SembleGetUser (Js.nullish clientId "")) ;;
             complete (getUser sembleService (Js.nullish clientId ""))) ;;
       match u with
       | Some p => ret {| upd_messages := None; upd_user := Some p |}
       | None => ret emptyUpdate
       end)
      (fun _ => ret emptyUpdate).

End Sources.

(* ===================================================================== *)
(** ** Fixtures: a concrete host, stores and states *)
(* ===================================================================== *)

Module Fixture.

Definition envWithKey : ProcessEnv :=
  {| OPENROUTER_API_KEY := Some "sk-test";
     OPENROUTER_BASE_URL := None;
     MODEL_NAME := None;
     SYSTEM_PROMPT := None;
     USE_MOCK_SEMBLE := None |}.

Definition envWithoutKey : ProcessEnv :=
  {| OPENROUTER_API_KEY := None;
     OPENROUTER_BASE_URL := None;
     MODEL_NAME := None;
     SYSTEM_PROMPT := None;
     USE_MOCK_SEMBLE := Some "false" |}.

Definition reply : BaseMessage :=
  {| getType := ai; content := Text "Noted." |}.

(** 1700000000000 ms is 2023-11-14T22:13:20Z; the clock advances one
    millisecond per reading. *)
Definition isoOf (t : Z) : string :=
  if (t =? 1700000000000)%Z then "2023-11-14T22:13:20.000Z"
  else if (t =? 1700000000001)%Z then "2023-11-14T22:13:20.001Z"
  else "1970-01-01T00:00:00.000Z".

Definition answering : Host :=
  {| env := envWithKey;
     clock := fun n => (1700000000000 + Z.of_nat n)%Z;
     toISOString := isoOf;
     provider := fun _ _ => Returns reply |}.

Definition otherReply : BaseMessage :=
  {| getType := ai; content := Text "I will remember that." |}.

Definition answeringOtherwise : Host :=
  {| env := envWithKey;
     clock := fun n => (1700000000000 + Z.of_nat n)%Z;
     toISOString := isoOf;
     provider := fun _ _ => Returns otherReply |}.

(** The registry once the LLM service has been built from [envWithKey]. *)
Definition builtService : OpenRouterLLMService :=
  {| apiKey := "sk-test"; baseURL := "https://openrouter.ai/api/v1" |}.

Definition worldWithService : World :=
  {| sembleService := None; llmService := Some builtService;
     clockReads := 0; trace := [] |}.

Definition providerDown : Host :=
  {| env := envWithKey;
     clock := fun n => (1700000000000 + Z.of_nat n)%Z;
     toISOString := isoOf;
     provider := fun _ _ => Throws (Error "503 Service Unavailable") |}.

Definition unconfigured : Host :=
  {| env := envWithoutKey;
     clock := fun n => (1700000000000 + Z.of_nat n)%Z;
     toISOString := isoOf;
     provider := fun _ _ => Returns reply |}.

Definition storeWith (items : list SearchItem) : BaseStore :=
  {| search := fun _ _ => Returns (Some items);
     put := fun _ _ _ => Returns tt |}.

Definition storeDown : BaseStore :=
  {| search := fun _ _ => Throws (Error "connection refused");
     put := fun _ _ _ => Throws (Error "connection refused") |}.

Definition item (t : string) : SearchItem :=
  {| value := Some {| text := t; createdAt := "2023-01-01T00:00:00.000Z" |} |}.

Definition says (who : MessageType) (t : string) : BaseMessage :=
  {| getType := who; content := Text t |}.

Definition configFor (cid : option string) (st : option BaseStore)
  : LangGraphRunnableConfig :=
  {| configurable :=
       Some {| model := None; clientId := cid; systemPrompt := None |};
     store := st |}.

Definition bareConfig (st : option BaseStore) : LangGraphRunnableConfig :=
  {| configurable := None; store := st |}.

Definition jane : Patient :=
  {| id := "p1"; firstName := Some "Jane"; lastName := Some "Doe";
     email := None; dob := None; gender := None;
     address := None; phones := None |}.

Definition stateOf (msgs : list BaseMessage) : AgentStateType :=
  {| messages := msgs; user := None |}.

End Fixture.

(* ===================================================================== *)
(** ** The specification's wording, as definitions *)
(* ===================================================================== *)

Module Spec.

(** "case-insensitively contains the substring": some stretch of the text
    equals the word once letter case is ignored. *)
Definition containsIgnoringCase (s word : string) : Prop :=
  exists pre mid post,
    s = pre ++ mid ++ post /\ Js.toLowerCase mid = word.

(** "the content is plain text": the text of a string content. *)
Definition plainText (m : option BaseMessage) : option string :=
  match m with
  | Some {| content := Text s |} => Some s
  | _ => None
  end.

(** The write policy fires on a message: its content is a plain string
    that mentions the trigger word. *)
Definition triggers (m : option BaseMessage) : Prop :=
  exists s, plainText m = Some s /\ containsIgnoringCase s "remember".

(** "the last user-authored message" of a message list. *)
Definition lastUserAuthored (msgs : list BaseMessage)
  : option BaseMessage :=
  at_last (filter (fun m => match getType m with
                            | human => true
                            | _ => false
                            end) msgs).

(** Section 4.5: the [.value.text] of each item, empty and absent ones
    dropped. *)
Fixpoint survivors (items : list SearchItem) : list string :=
  match items with
  | [] => []
  | {| value := Some it |} :: rest =>
      if text it =? "" then survivors rest else text it :: survivors rest
  | {| value := None |} :: rest => survivors rest
  end.

(** Section 4.5: joined with ["\n- "], prefixed with ["- "] when at least
    one entry survived. *)
Definition memoryText (items : list SearchItem) : string :=
  match survivors items with
  | [] => ""
  | kept => "- " ++ Js.join (Js.LF ++ "- ") kept
  end.

(** Section 4.4, step 1: override, else process default, else the
    hardcoded default. *)
Definition effectiveInstruction (override processDefault : option string)
  : string :=
  match override, processDefault with
  | Some s, _ => s
  | None, Some s => s
  | None, None => "You are a helpful assistant."
  end.

(** A conditional profile line: there when the field holds a non-empty
    string, gone otherwise. *)
Definition fieldLine (label : string) (field : option string)
  : list string :=
  match field with
  | Some v => if v =? "" then [] else [label ++ ": " ++ v]
  | None => []
  end.

Definition nameLine (p : Patient) : string :=
  "User Name: " ++ Js.interpolate (firstName p) ++ " "
                ++ Js.interpolate (lastName p).

(** Section 4.4, step 2: the lines of the profile block, in order. *)
Definition profileLines (p : Patient) : list string :=
  (nameLine p :: fieldLine "Email" (email p)
              ++ fieldLine "DOB" (dob p)
              ++ fieldLine "Gender" (gender p))%list.

Definition profileHeader : string :=
  Js.LF ++ Js.LF
    ++ "Here is some information about the user you are talking to:"
    ++ Js.LF.

Definition memoryHeader : string :=
  Js.LF ++ Js.LF ++ "What you remember about this user:" ++ Js.LF.

Definition profileBlock (profile : option Patient) : string :=
  match profile with
  | Some p => profileHeader ++ Js.join Js.LF (profileLines p)
  | None => ""
  end.

(** Section 4.4, step 3. *)
Definition memoryBlock (memories : option string) : string :=
  match memories with
  | Some t => if t =? "" then "" else memoryHeader ++ t
  | None => ""
  end.

Definition systemText (override processDefault : option string)
    (profile : option Patient) (memories : option string) : string :=
  effectiveInstruction override processDefault
    ++ profileBlock profile ++ memoryBlock memories.

(** "configuration lacks a clientId" *)
Definition lacksClientId (config : LangGraphRunnableConfig) : Prop :=
  match configurable config with
  | Some c => clientId c = None
  | None => True
  end.

End Spec.

(** ** What a turn did, read off the trace *)

(** The [put] calls of a trace, in order. *)
Fixpoint putsOf (t : list Event)
  : list (list string * string * MemoryItem) :=
  match t with
  | [] => []
  | StorePut ns key item :: rest => (ns, key, item) :: putsOf rest
  | _ :: rest => putsOf rest
  end.

(** The [search] calls of a trace. *)
Fixpoint searchesOf (t : list Event) : list (list string * nat) :=
  match t with
  | [] => []
  | StoreSearch ns limit :: rest => (ns, limit) :: searchesOf rest
  | _ :: rest => searchesOf rest
  end.

(** The profile lookups of a trace. *)
Fixpoint lookupsOf (t : list Event) : list string :=
  match t with
  | [] => []
  | SembleGetUser uid :: rest => uid :: lookupsOf rest
  | _ :: rest => lookupsOf rest
  end.

(** The inputs handed to the chat provider. *)
Fixpoint invocationsOf (t : list Event) : list (list BaseMessage) :=
  match t with
  | [] => []
  | LlmInvoke _ input :: rest => input :: invocationsOf rest
  | _ :: rest => invocationsOf rest
  end.

Section Runs.

Variable host : Host.

(** [config.configurable?.model], [config.configurable?.systemPrompt] *)
Definition modelOf (config : LangGraphRunnableConfig) : option string :=
  match configurable config with Some c => model c | None => None end.

Definition systemPromptOf (config : LangGraphRunnableConfig)
  : option string :=
  match configurable config with
  | Some c => systemPrompt c
  | None => None
  end.

(** The memory text a turn retrieves, as a function of what the store
    answers. *)
Definition retrievedText (config : LangGraphRunnableConfig) : string :=
  match store config with
  | Some st =>
      match search st (getMemoryNamespace (resolveClientId config)) 10 with
      | Returns (Some ms) =>
          if (0 <? List.length ms)%nat then formatMemories ms else ""
      | _ => ""
      end
  | None => ""
  end.

(** The message list a turn hands to the chat provider. *)
Definition turnInput (state : AgentStateType)
    (config : LangGraphRunnableConfig) : list BaseMessage :=
  createSystemMessage host (Some (retrievedText config)) (user state)
                      (systemPromptOf config)
    :: messages state.

(** The [put] the write policy makes when it fires after [reads] earlier
    clock readings. *)
Definition policyPut (clientId content : string) (reads : nat)
  : list string * string * MemoryItem :=
  (["memories"; clientId],
   "mem_" ++ Js.numberToString (clock host reads),
   {| text := content;
      createdAt := toISOString host (clock host (S reads)) |}).

Definition putEvent (p : list string * string * MemoryItem) : Event :=
  let '(ns, key, item) := p in StorePut ns key item.

(** Whether the write policy reaches its [put]. *)
Definition policyFires (state : AgentStateType)
    (config : LangGraphRunnableConfig) : bool :=
  match store config with
  | Some _ =>
      Js.includes (Js.toLowerCase (examinedContent (messages state)))
                  "remember"
  | None => false
  end.

Definition policyEvents (state : AgentStateType)
    (config : LangGraphRunnableConfig) (reads : nat) : list Event :=
  if policyFires state config then
    [putEvent (policyPut (resolveClientId config)
                         (examinedContent (messages state)) reads)]
  else [].

Definition policyReads (state : AgentStateType)
    (config : LangGraphRunnableConfig) : nat :=
  if policyFires state config then 2 else 0.

Definition searchEvents (config : LangGraphRunnableConfig) : list Event :=
  match store config with
  | Some _ => [StoreSearch (getMemoryNamespace (resolveClientId config)) 10]
  | None => []
  end.

(** The world after [reads] more clock readings and [events] more calls. *)
Definition after (w : World) (reads : nat) (events : list Event) : World :=
  {| sembleService := sembleService w;
     llmService := llmService w;
     clockReads := clockReads w + reads;
     trace := (trace w ++ events)%list |}.

End Runs.

(* ===================================================================== *)
(** ** More of the sources *)
(* ===================================================================== *)

(** [a ?? b] when [b] may be [undefined] too. *)
Definition coalesce {A : Type} (a b : option A) : option A :=
  match a with
  | Some x => Some x
  | None => b
  end.

(** [a || b] on strings: [undefined] and [""] give way to [b]. *)
Definition orElse (a : option string) (b : string) : string :=
  if Js.truthy a then Js.nullish a b else b.

(** *** Process startup: loading the entry module [agent.ts]
    ([src/types/services.ts], lines 166-189).  It loads [graph.ts]
    ([src/llm.ts], lines 75-134) and, through the node, the registry.  The
    registry declares both slots [null]; [graph.ts] adds the conversation
    node to the workflow and derives the checkpointer and the store from
    [DATABASE_URL]; no module constructs an LLM service or reads the
    credential. *)
Record CompiledGraph := {
  graphNodes : list string;
  graphCheckpointer : option string;
  graphStore : option string }.

Definition loadAgent (DATABASE_URL : option string)
  : Completion (CompiledGraph * World) :=
  let checkpointer :=
    if Js.truthy DATABASE_URL then DATABASE_URL else None in
  let store := if Js.truthy DATABASE_URL then DATABASE_URL else None in
  Returns ({| graphNodes := ["conversation"];
              graphCheckpointer := checkpointer;
              graphStore := store |},
           initialWorld).

(** [resetProviders()] of [src/providers/index.ts]. *)
Definition resetProviders : M unit :=
  fun w =>
    (Returns tt,
     {| sembleService := None; llmService := None;
        clockReads := clockReads w; trace := trace w |}).

(** [config.configurable?.clientId] *)
Definition clientIdOf (config : LangGraphRunnableConfig) : option string :=
  match configurable config with
  | Some c => clientId c
  | None => None
  end.

(** The profile channel after a run of writes, each through its reducer. *)
Definition userAfter (x : option Patient) (writes : list (option Patient))
  : option Patient :=
  fold_left userReducer writes x.

(** The most recent write that carried a profile. *)
Fixpoint lastProfile (writes : list (option Patient)) : option Patient :=
  match writes with
  | [] => None
  | y :: rest =>
      match lastProfile rest with
      | Some p => Some p
      | None => y
      end
  end.

(** *** [src/llm.ts]: [createLLM], the factory the first conversation node
    used *)

Module Llm.

Record LLMConfig := {
  modelName : option string;
  apiKey : option string;
  baseURL : option string }.

Definition DEFAULT_MODEL : string := "google/gemini-2.5-flash-lite".
Definition DEFAULT_BASE_URL : string := "https://openrouter.ai/api/v1".

Definition createLLM (host : Host) (config : option LLMConfig)
  : Completion ChatOpenAI :=
  let apiKey :=
    coalesce (match config with Some c => apiKey c | None => None end)
             (OPENROUTER_API_KEY (env host)) in
  if negb (Js.truthy apiKey) then
    Throws (Error "OpenRouter API key is required. Set OPENROUTER_API_KEY environment variable or pass apiKey in config.")
  else
    let baseURL :=
      Js.nullish (match config with Some c => baseURL c | None => None end)
        (Js.nullish (OPENROUTER_BASE_URL (env host)) DEFAULT_BASE_URL) in
    let modelName :=
      Js.nullish (match config with Some c => modelName c | None => None end)
        (Js.nullish (MODEL_NAME (env host)) DEFAULT_MODEL) in
    Returns {| chat_model := modelName;
               chat_apiKey := Js.nullish apiKey "";
               chat_baseURL := baseURL |}.

End Llm.

(** *** [src/nodes/conversation.ts], the revision kept after the current
    one (lines 166-317): no profile, no per-call overrides, the model built
    by [createLLM()] on every turn.  Its retrieval block and its write policy
    are those of the current revision with a [console] line added; console
    output is not modelled. *)

Module Previous.

Definition getSystemPrompt (host : Host) : string :=
  Js.nullish (SYSTEM_PROMPT (env host)) DEFAULT_SYSTEM_PROMPT.

Definition systemPromptText (host : Host) (memories : option string)
  : string :=
  let basePrompt := getSystemPrompt host in
  if Js.truthy memories then
    basePrompt ++ Js.LF ++ Js.LF ++ "What you remember about this user:"
      ++ Js.LF ++ Js.interpolate memories
  else basePrompt.

Definition createSystemMessage (host : Host) (memories : option string)
  : BaseMessage :=
  SystemMessage (systemPromptText host memories).

Definition conversationNode (host : Host) (state : AgentStateType)
    (config : LangGraphRunnableConfig) : M AgentStateUpdate :=
  llm <- complete (Llm.createLLM host None) ;;
  let clientId := resolveClientId config in
  memoriesText <- retrieveMemories config clientId ;;
  let systemMessage := createSystemMessage host (Some memoriesText) in
  response <- invoke host llm (systemMessage :: messages state) ;;
  storeMemory host state config clientId ;;
  ret {| upd_messages := Some [response]; upd_user := None |}.

End Previous.

(** *** The first agent, kept in [src/types/services.ts] (lines 20-111):
    the system prompt and the model come from the environment through
    [||]. *)

Module FirstAgent.

Definition DEFAULT_SYSTEM_PROMPT : string := "You are a helpful assistant.".

Definition getSystemPrompt (SYSTEM_PROMPT : option string) : string :=
  orElse SYSTEM_PROMPT DEFAULT_SYSTEM_PROMPT.

(** The chat model [createLLM] constructs. *)
Inductive ChatModel :=
| ChatAnthropic (model : string)
| ChatOpenAIModel (model : string).

Definition createLLM (MODEL_PROVIDER MODEL_NAME : option string)
  : ChatModel :=
  let provider := orElse MODEL_PROVIDER "openai" in
  let modelName := MODEL_NAME in
  if provider =? "anthropic" then
    ChatAnthropic (orElse modelName "claude-3-5-sonnet-latest")
  else
    ChatOpenAIModel (orElse modelName "gpt-4o-mini").

Definition modelNameOf (m : ChatModel) : string :=
  match m with
  | ChatAnthropic n => n
  | ChatOpenAIModel n => n
  end.

End FirstAgent.

(** *** The database setup script ([src/unnamed/part_001]).  What it prints
    is not modelled; [process.exit(1)] ends the script where it stands. *)

Module Migrate.

(** The two [setup()] calls; [fromConnString] is part of each. *)
Record Postgres := {
  checkpointerSetup : string -> Completion unit;
  storeSetup : string -> Completion unit }.

Inductive Step :=
| CheckpointerSetup (connectionString : string)
| StoreSetup (connectionString : string).

Inductive Outcome :=
| Finished
| Exit (code : nat).

Definition setup (DATABASE_URL : option string) (pg : Postgres)
  : Outcome * list Step :=
  let connectionString := DATABASE_URL in
  if negb (Js.truthy connectionString) then (Exit 1, [])
  else
    let conn := Js.nullish connectionString "" in
    match checkpointerSetup pg conn with
    | Throws _ => (Exit 1, [CheckpointerSetup conn])
    | Returns _ =>
        match storeSetup pg conn with
        | Throws _ => (Exit 1, [CheckpointerSetup conn; StoreSetup conn])
        | Returns _ => (Finished, [CheckpointerSetup conn; StoreSetup conn])
        end
    end.

End Migrate.

(* ===================================================================== *)
(** ** Facts about the string primitives *)
(* ===================================================================== *)

Lemma append_empty_r (s : string) : s ++ "" = s.
Proof. induction s as [|c s IH]; simpl; [reflexivity | now rewrite IH]. Qed.

Lemma append_assoc (a b c : string) : (a ++ b) ++ c = a ++ b ++ c.
Proof. induction a as [|x a IH]; simpl; [reflexivity | now rewrite IH]. Qed.

Lemma append_eq_empty (a b : string) : a ++ b = "" -> a = "" /\ b = "".
Proof. destruct a; simpl; [auto | discriminate]. Qed.

Lemma eqb_empty_false (s : string) : (s =? "") = false <-> s <> "".
Proof.
  split.
  - intros H E. subst s. discriminate.
  - intros H. destruct s; [congruence | reflexivity].
Qed.

Lemma startsWith_iff (s p : string) :
  Js.startsWith s p = true <-> exists post, s = p ++ post.
Proof.
  revert s. induction p as [|c p IH]; intros s.
  - destruct s; simpl; (split; [intros _; eexists; reflexivity | reflexivity]).
  - destruct s as [|d s]; simpl.
    + split; [discriminate | intros [post H]; discriminate].
    + rewrite andb_true_iff, Ascii.eqb_eq, IH. split.
      * intros [-> [post ->]]. now exists post.
      * intros [post H]. injection H as -> ->. split; [reflexivity | now exists post].
Qed.

Lemma includes_iff (s pat : string) :
  Js.includes s pat = true <-> exists pre post, s = pre ++ pat ++ post.
Proof.
  induction s as [|c s IH]; cbn [Js.includes].
  - rewrite orb_false_r, startsWith_iff. split.
    + intros [post H]. now exists "", post.
    + intros [pre [post H]]. symmetry in H.
      apply append_eq_empty in H as [-> H]. now exists post.
  - rewrite orb_true_iff, startsWith_iff, IH. split.
    + intros [[post H] | [pre [post H]]].
      * now exists "", post.
      * exists (String c pre), post. simpl. now rewrite H.
    + intros [pre [post H]]. destruct pre as [|d pre]; simpl in H.
      * left. now exists post.
      * right. injection H as _ H. now exists pre, post.
Qed.

Lemma toLowerCase_app (a b : string) :
  Js.toLowerCase (a ++ b) = Js.toLowerCase a ++ Js.toLowerCase b.
Proof. induction a as [|c a IH]; simpl; [reflexivity | now rewrite IH]. Qed.

(** A split of the folded text comes from a split of the text. *)
Lemma toLowerCase_split (s a b : string) :
  Js.toLowerCase s = a ++ b ->
  exists a' b', s = a' ++ b' /\ Js.toLowerCase a' = a /\ Js.toLowerCase b' = b.
Proof.
  revert s. induction a as [|c a IH]; intros s H; simpl in H.
  - now exists "", s.
  - destruct s as [|d s]; simpl in H; [discriminate |].
    injection H as Hc Hs. destruct (IH _ Hs) as [a' [b' [-> [Ha Hb]]]].
    exists (String d a'), b'. simpl. now rewrite Hc, Ha.
Qed.

(** The test of line 148 is case-insensitive containment. *)
Lemma includes_toLowerCase_iff (s word : string) :
  Js.includes (Js.toLowerCase s) word = true
  <-> Spec.containsIgnoringCase s word.
Proof.
  rewrite includes_iff. unfold Spec.containsIgnoringCase. split.
  - intros [pre [post H]].
    destruct (toLowerCase_split _ _ _ H) as [pre' [rest [-> [_ Hr]]]].
    destruct (toLowerCase_split _ _ _ Hr) as [mid [post' [-> [Hm _]]]].
    now exists pre', mid, post'.
  - intros [pre [mid [post [-> Hm]]]].
    exists (Js.toLowerCase pre), (Js.toLowerCase post).
    now rewrite !toLowerCase_app, Hm.
Qed.

Lemma join_cons_nonempty (sep x : string) (xs : list string) :
  x <> "" -> Js.join sep (x :: xs) <> "".
Proof.
  intros Hx. destruct xs as [|y ys]; simpl; [assumption |].
  intros H. apply append_eq_empty in H as [H _]. contradiction.
Qed.

(** [filter(Boolean)] after the [.value.text] projection keeps the
    survivors of the specification. *)
Lemma filterBoolean_texts (items : list SearchItem) :
  Js.filterBoolean
    (map (fun m => match value m with
                   | Some item => Some (text item)
                   | None => None
                   end) items)
  = Spec.survivors items.
Proof.
  induction items as [|[[it|]] rest IH]; simpl; [reflexivity | |assumption].
  destruct (text it =? ""); [assumption | now rewrite IH].
Qed.

Lemma survivors_head_nonempty (items : list SearchItem) (x : string)
    (xs : list string) :
  Spec.survivors items = x :: xs -> x <> "".
Proof.
  induction items as [|[[it|]] rest IH]; simpl; [discriminate | |assumption].
  destruct (text it =? "") eqn:E; [assumption |].
  intros H. injection H as <- _. now apply eqb_empty_false.
Qed.

Lemma formatMemories_memoryText (items : list SearchItem) :
  formatMemories items = Spec.memoryText items.
Proof.
  unfold formatMemories, Spec.memoryText. rewrite filterBoolean_texts.
  destruct (Spec.survivors items) as [|x xs] eqn:E; [reflexivity |].
  assert (Hne : Js.join (Js.LF ++ "- ") (x :: xs) <> "").
  { apply join_cons_nonempty. eapply survivors_head_nonempty; eassumption. }
  apply eqb_empty_false in Hne. unfold Js.truthy. now rewrite Hne.
Qed.

Lemma at_last_snoc {A} (xs : list A) (x : A) :
  at_last (xs ++ [x])%list = Some x.
Proof.
  induction xs as [|y ys IH]; [reflexivity |].
  simpl. destruct (ys ++ [x])%list eqn:E; [| exact IH].
  destruct ys; discriminate.
Qed.


(* ===================================================================== *)
(** ** Running the nodes *)
(* ===================================================================== *)

Ltac run_monad :=
  unfold bind, tryCatch, ret, throw, emit, complete, readClock, invoke;
  cbn [fst snd].

Lemma after_idle (w : World) : after w 0 [] = w.
Proof.
  destruct w. unfold after. cbn.
  now rewrite Nat.add_0_r, app_nil_r.
Qed.

Lemma getLLMService_frame (host : Host) (w w1 : World)
    (r : Completion OpenRouterLLMService) :
  getLLMService host w = (r, w1) ->
  trace w1 = trace w /\ clockReads w1 = clockReads w
  /\ sembleService w1 = sembleService w.
Proof.
  unfold getLLMService. destruct (llmService w).
  - intros H. injection H as _ <-. auto.
  - destruct (createLLMService host); intros H; injection H as _ <-;
      cbn; auto.
Qed.

(** The retrieval block always returns, with the text the store's answer
    determines, after at most one [search]. *)
Lemma retrieveMemories_run (config : LangGraphRunnableConfig) (w : World) :
  retrieveMemories config (resolveClientId config) w
  = (Returns (retrievedText config), after w 0 (searchEvents config)).
Proof.
  unfold retrieveMemories, retrievedText, searchEvents.
  destruct (store config) as [st|].
  - run_monad.
    destruct (search st _ 10) as [[[|m ms]|]|e];
      cbn; unfold after; cbn; now rewrite Nat.add_0_r.
  - unfold ret. now rewrite after_idle.
Qed.

(** The write policy always returns; it makes one [put] when it fires and
    none otherwise. *)
Lemma storeMemory_run (host : Host) (state : AgentStateType)
    (config : LangGraphRunnableConfig) (w : World) :
  storeMemory host state config (resolveClientId config) w
  = (Returns tt,
     after w (policyReads state config)
             (policyEvents host state config (clockReads w))).
Proof.
  unfold storeMemory, policyEvents, policyReads, policyFires.
  destruct (store config) as [st|].
  - destruct (Js.includes _ "remember").
    + run_monad. unfold after, policyPut, putEvent, getMemoryNamespace. cbn.
      replace (clockReads w + 2) with (S (S (clockReads w))) by lia.
      destruct (put st _ _ _) as [[]|e]; reflexivity.
    + unfold ret. now rewrite after_idle.
  - unfold ret. now rewrite after_idle.
Qed.

(** A turn whose chat model resolves: everything it does, as a function of
    what the provider answers. *)
Lemma conversationNode_run (host : Host) (state : AgentStateType)
    (config : LangGraphRunnableConfig) (w w1 : World)
    (svc : OpenRouterLLMService) :
  getLLMService host w = (Returns svc, w1) ->
  let llm := getModel host svc (modelOf config) in
  let input := turnInput host state config in
  conversationNode host state config w
  = match provider host llm input with
    | Returns r =>
        (Returns {| upd_messages := Some [r]; upd_user := None |},
         after w1 (policyReads state config)
           (searchEvents config ++ [LlmInvoke llm input]
              ++ policyEvents host state config (clockReads w1))%list)
    | Throws e =>
        (Throws e, after w1 0 (searchEvents config ++ [LlmInvoke llm input])%list)
    end.
Proof.
  intros Hsvc llm input. unfold conversationNode.
  unfold bind at 1. rewrite Hsvc.
  unfold bind at 1. rewrite retrieveMemories_run.
  fold (modelOf config) (systemPromptOf config).
  fold (turnInput host state config). fold llm input.
  unfold bind at 1, invoke, bind at 1, emit, complete. cbn [fst snd].
  destruct (provider host llm input) as [r|e].
  - unfold bind at 1. rewrite storeMemory_run. unfold ret.
    f_equal. unfold after. cbn. f_equal; [lia |].
    now rewrite Nat.add_0_r, <- !app_assoc.
  - f_equal. unfold after. cbn. f_equal. now rewrite <- app_assoc.
Qed.

(** A turn whose chat model does not resolve ends there. *)
Lemma conversationNode_unresolved (host : Host) (state : AgentStateType)
    (config : LangGraphRunnableConfig) (w w1 : World) (e : JsError) :
  getLLMService host w = (Throws e, w1) ->
  conversationNode host state config w = (Throws e, w1).
Proof.
  intros H. unfold conversationNode, bind at 1. now rewrite H.
Qed.

(* ===================================================================== *)
(** ** Reading traces *)
(* ===================================================================== *)

Lemma putsOf_app (a b : list Event) :
  putsOf (a ++ b)%list = (putsOf a ++ putsOf b)%list.
Proof.
  induction a as [|[] a IH]; simpl; try assumption; [reflexivity |].
  now rewrite IH.
Qed.

Lemma searchesOf_app (a b : list Event) :
  searchesOf (a ++ b)%list = (searchesOf a ++ searchesOf b)%list.
Proof.
  induction a as [|[] a IH]; simpl; try assumption; [reflexivity |].
  now rewrite IH.
Qed.

Lemma invocationsOf_app (a b : list Event) :
  invocationsOf (a ++ b)%list = (invocationsOf a ++ invocationsOf b)%list.
Proof.
  induction a as [|[] a IH]; simpl; try assumption; [reflexivity |].
  now rewrite IH.
Qed.

Lemma putsOf_searchEvents (config : LangGraphRunnableConfig) :
  putsOf (searchEvents config) = [].
Proof. unfold searchEvents. now destruct (store config). Qed.

Lemma invocationsOf_searchEvents (config : LangGraphRunnableConfig) :
  invocationsOf (searchEvents config) = [].
Proof. unfold searchEvents. now destruct (store config). Qed.

Lemma putsOf_policyEvents (host : Host) (state : AgentStateType)
    (config : LangGraphRunnableConfig) (reads : nat) :
  putsOf (policyEvents host state config reads)
  = if policyFires state config
    then [policyPut host (resolveClientId config)
                    (examinedContent (messages state)) reads]
    else [].
Proof. unfold policyEvents. now destruct (policyFires state config). Qed.

Lemma invocationsOf_policyEvents (host : Host) (state : AgentStateType)
    (config : LangGraphRunnableConfig) (reads : nat) :
  invocationsOf (policyEvents host state config reads) = [].
Proof. unfold policyEvents. now destruct (policyFires state config). Qed.

(** ** What the write policy looks at *)

Lemma examinedContent_plain (msgs : list BaseMessage) (s : string) :
  Spec.plainText (at_last msgs) = Some s -> examinedContent msgs = s.
Proof.
  unfold examinedContent, Spec.plainText.
  destruct (at_last msgs) as [[ty [t|bs]]|]; cbn; congruence.
Qed.

Lemma examinedContent_not_plain (msgs : list BaseMessage) :
  Spec.plainText (at_last msgs) = None -> examinedContent msgs = "".
Proof.
  unfold examinedContent, Spec.plainText.
  destruct (at_last msgs) as [[ty [t|bs]]|]; cbn; congruence.
Qed.

Lemma empty_lacks_remember : ~ Spec.containsIgnoringCase "" "remember".
Proof.
  intros [pre [mid [post [H Hm]]]]. symmetry in H.
  apply append_eq_empty in H as [_ H].
  apply append_eq_empty in H as [-> _]. discriminate.
Qed.

Lemma policyFires_iff (state : AgentStateType)
    (config : LangGraphRunnableConfig) :
  policyFires state config = true
  <-> store config <> None /\ Spec.triggers (at_last (messages state)).
Proof.
  unfold policyFires, Spec.triggers.
  destruct (store config) as [st|].
  - rewrite includes_toLowerCase_iff. split.
    + intros H. split; [discriminate |].
      destruct (Spec.plainText (at_last (messages state))) as [s|] eqn:E.
      * exists s. now rewrite (examinedContent_plain _ _ E) in H.
      * rewrite (examinedContent_not_plain _ E) in H.
        now apply empty_lacks_remember in H.
    + intros [_ [s [E H]]]. now rewrite (examinedContent_plain _ _ E).
  - split; [discriminate | intros [H _]; congruence].
Qed.

Lemma policyFires_false_iff (state : AgentStateType)
    (config : LangGraphRunnableConfig) :
  policyFires state config = false
  <-> ~ (store config <> None /\ Spec.triggers (at_last (messages state))).
Proof.
  rewrite <- policyFires_iff. destruct (policyFires state config);
    split; congruence.
Qed.

(** The [put] calls the write policy adds to a trace. *)
Lemma storeMemory_puts (host : Host) (state : AgentStateType)
    (config : LangGraphRunnableConfig) (w : World) :
  putsOf (trace (snd (storeMemory host state config
                                  (resolveClientId config) w)))
  = (putsOf (trace w)
     ++ if policyFires state config
        then [policyPut host (resolveClientId config)
                        (examinedContent (messages state)) (clockReads w)]
        else [])%list.
Proof.
  rewrite storeMemory_run. cbn [snd after trace].
  now rewrite putsOf_app, putsOf_policyEvents.
Qed.

(** The [put] calls a whole turn adds when the provider answers. *)
Lemma conversationNode_puts (host : Host) (state : AgentStateType)
    (config : LangGraphRunnableConfig) (w w1 : World)
    (svc : OpenRouterLLMService) (r : BaseMessage) :
  getLLMService host w = (Returns svc, w1) ->
  provider host (getModel host svc (modelOf config))
           (turnInput host state config) = Returns r ->
  putsOf (trace (snd (conversationNode host state config w)))
  = (putsOf (trace w)
     ++ if policyFires state config
        then [policyPut host (resolveClientId config)
                        (examinedContent (messages state)) (clockReads w)]
        else [])%list.
Proof.
  intros Hsvc Hr. rewrite (conversationNode_run host state config w w1 svc Hsvc), Hr.
  destruct (getLLMService_frame host w w1 _ Hsvc) as [Ht [Hc _]].
  cbn [snd after trace].
  rewrite !putsOf_app, putsOf_searchEvents, putsOf_policyEvents, Ht, Hc.
  reflexivity.
Qed.

(* ===================================================================== *)
(** ** The memory write policy *)
(* ===================================================================== *)

(** C1. With a configured store the write policy makes exactly one [put] --
    in namespace [["memories"; clientId]], under the key ["mem_"] followed
    by the clock reading in milliseconds, with the value
    [{ text := the content verbatim; createdAt := toISOString (now) }] --
    if and only if the content of the message it examines is a plain string
    that contains "remember" whatever the letter case.  Without a store, with
    a content that is not a plain string, or without the word, it makes no
    [put].  The policy itself never fails, and the [put] calls of a whole
    turn whose reply was produced are those of the policy. *)
Theorem C1_write_policy_puts_iff_remember
    (host : Host) (state : AgentStateType) (config : LangGraphRunnableConfig)
    (w : World) :
  let clientId := resolveClientId config in
  let examined := at_last (messages state) in
  let ran := storeMemory host state config clientId w in
  let before := putsOf (trace w) in
  let puts := putsOf (trace (snd ran)) in
  fst ran = Returns tt
  /\ (forall s,
        store config <> None ->
        Spec.plainText examined = Some s ->
        Spec.containsIgnoringCase s "remember" ->
        puts = (before
                ++ [(["memories"; clientId],
                     ("mem_" ++ Js.numberToString
                                  (clock host (clockReads w)))%string,
                     {| text := s;
                        createdAt :=
                          toISOString host
                            (clock host (S (clockReads w))) |})])%list)
  /\ (store config <> None ->
      (List.length puts = S (List.length before)
       <-> Spec.triggers examined))
  /\ (store config = None
      \/ Spec.plainText examined = None
      \/ (forall s, Spec.plainText examined = Some s ->
                    ~ Spec.containsIgnoringCase s "remember") ->
      puts = before)
  /\ (forall svc w1 r,
        getLLMService host w = (Returns svc, w1) ->
        provider host (getModel host svc (modelOf config))
                 (turnInput host state config) = Returns r ->
        putsOf (trace (snd (conversationNode host state config w))) = puts).
Proof.
  cbn zeta. rewrite storeMemory_puts, storeMemory_run. cbn [fst].
  split; [reflexivity |]. split; [| split; [| split]].
  - intros s Hst Hplain Hword.
    assert (F : policyFires state config = true).
    { apply policyFires_iff. split; [assumption | now exists s]. }
    rewrite F, (examinedContent_plain _ _ Hplain). reflexivity.
  - intros Hst. rewrite length_app.
    destruct (policyFires state config) eqn:F.
    + apply policyFires_iff in F as [_ F]. cbn. split; [auto | lia].
    + apply policyFires_false_iff in F. cbn. split; [lia |].
      intros T. exfalso. apply F. now split.
  - intros H. destruct (policyFires state config) eqn:F;
      [| now rewrite app_nil_r].
    apply policyFires_iff in F as [Hst [s [Hplain Hword]]].
    destruct H as [H | [H | H]]; [congruence | congruence |].
    now apply H in Hword.
  - intros svc w1 r Hsvc Hr.
    now rewrite (conversationNode_puts host state config w w1 svc r Hsvc Hr).
Qed.

(** The policy on "Please remember I like tea" for client [c1]: one [put],
    keyed by the first clock reading, dated by the second. *)
Lemma C1_witness_tea :
  putsOf (trace (snd (storeMemory Fixture.answering
      (Fixture.stateOf [Fixture.says human "Please remember I like tea"])
      (Fixture.configFor (Some "c1") (Some (Fixture.storeWith [])))
      "c1" initialWorld)))
  = [(["memories"; "c1"], "mem_1700000000000",
      {| text := "Please remember I like tea";
         createdAt := "2023-11-14T22:13:20.001Z" |})].
Proof.
  destruct (C1_write_policy_puts_iff_remember Fixture.answering
      (Fixture.stateOf [Fixture.says human "Please remember I like tea"])
      (Fixture.configFor (Some "c1") (Some (Fixture.storeWith [])))
      initialWorld) as (_ & H & _).
  apply (H "Please remember I like tea").
  - discriminate.
  - reflexivity.
  - exists "Please ", "remember", " I like tea". split; reflexivity.
Defined.

(* ===================================================================== *)
(** ** Memory retrieval *)
(* ===================================================================== *)

(** C2. The memory text built from the items of a search is the
    [.value.text] of each item, empty and absent ones dropped, joined with
    ["\n- "] and prefixed with ["- "] when at least one is left; the items
    [a], [""], [b] give ["- a\n- b"].  Retrieval always returns: without a
    store, when the search throws, or when nothing is left, the text is
    empty; and the turn completes with the provider's reply, the provider
    having been handed the system message built from that text. *)
Theorem C2_memory_text_assembly :
  (forall items, formatMemories items = Spec.memoryText items)
  /\ (forall c1 c2 c3,
        formatMemories
          [ {| value := Some {| text := "a"; createdAt := c1 |} |};
            {| value := Some {| text := ""; createdAt := c2 |} |};
            {| value := Some {| text := "b"; createdAt := c3 |} |} ]
        = "- a" ++ Js.LF ++ "- b")
  /\ (forall config w,
        let namespace := ["memories"; resolveClientId config] in
        fst (retrieveMemories config (resolveClientId config) w)
        = Returns (retrievedText config)
        /\ (store config = None -> retrievedText config = "")
        /\ (forall st e,
              store config = Some st ->
              search st namespace 10 = Throws e ->
              retrievedText config = "")
        /\ (forall st items,
              store config = Some st ->
              search st namespace 10 = Returns (Some items) ->
              retrievedText config = Spec.memoryText items
              /\ (Spec.survivors items = [] -> retrievedText config = "")))
  /\ (forall host state config w svc w1 r,
        getLLMService host w = (Returns svc, w1) ->
        provider host (getModel host svc (modelOf config))
          (createSystemMessage host (Some (retrievedText config))
             (user state) (systemPromptOf config) :: messages state)
        = Returns r ->
        let ran := conversationNode host state config w in
        fst ran = Returns {| upd_messages := Some [r]; upd_user := None |}
        /\ invocationsOf (trace (snd ran))
           = (invocationsOf (trace w)
              ++ [createSystemMessage host (Some (retrievedText config))
                    (user state) (systemPromptOf config)
                  :: messages state])%list).
Proof.
  split; [exact formatMemories_memoryText |].
  split; [reflexivity |]. split.
  - intros config w namespace. rewrite retrieveMemories_run.
    split; [reflexivity |]. unfold retrievedText, getMemoryNamespace.
    fold namespace. split; [| split].
    + now intros ->.
    + intros st e -> ->. reflexivity.
    + intros st items -> ->.
      assert (E : (if (0 <? List.length items)%nat
                   then formatMemories items else "")
                  = Spec.memoryText items).
      { destruct items; [reflexivity | apply formatMemories_memoryText]. }
      rewrite E. split; [reflexivity |].
      unfold Spec.memoryText. now intros ->.
  - intros host state config w svc w1 r Hsvc Hr. cbn zeta.
    fold (turnInput host state config) in *.
    rewrite (conversationNode_run host state config w w1 svc Hsvc), Hr.
    destruct (getLLMService_frame host w w1 _ Hsvc) as [Ht _].
    cbn [fst snd after trace]. split; [reflexivity |].
    rewrite !invocationsOf_app, invocationsOf_searchEvents,
      invocationsOf_policyEvents, Ht.
    reflexivity.
Qed.

(** A turn against a store that is down: the memory text is empty and the
    reply still comes back. *)
Lemma C2_witness_store_down :
  retrievedText (Fixture.bareConfig (Some Fixture.storeDown)) = ""
  /\ fst (conversationNode Fixture.answering
            (Fixture.stateOf [Fixture.says human "hello"])
            (Fixture.bareConfig (Some Fixture.storeDown)) initialWorld)
     = Returns {| upd_messages := Some [Fixture.reply]; upd_user := None |}.
Proof.
  destruct C2_memory_text_assembly as (_ & _ & Hret & Hturn).
  split.
  - destruct (Hret (Fixture.bareConfig (Some Fixture.storeDown)) initialWorld)
      as (_ & _ & Hthrow & _).
    apply (Hthrow Fixture.storeDown (Error "connection refused"));
      reflexivity.
  - apply (Hturn Fixture.answering
             (Fixture.stateOf [Fixture.says human "hello"])
             (Fixture.bareConfig (Some Fixture.storeDown)) initialWorld
             {| apiKey := "sk-test"; baseURL := DEFAULT_BASE_URL |}
             {| sembleService := None;
                llmService := Some {| apiKey := "sk-test";
                                      baseURL := DEFAULT_BASE_URL |};
                clockReads := 0; trace := [] |}
             Fixture.reply); reflexivity.
Defined.

(* ===================================================================== *)
(** ** Failures *)
(* ===================================================================== *)

Lemma getSembleService_returns (host : Host) (w : World) :
  exists s w2,
    getSembleService host w = (Returns s, w2) /\ trace w2 = trace w.
Proof.
  unfold getSembleService. destruct (sembleService w) as [s|].
  - now exists s, w.
  - eexists _, _. split; reflexivity.
Qed.

(** C3. A failure of the chat provider ends the turn with that failure and
    no reply (and nothing is written to the store); a failure of the store's
    search leaves the memory text empty, and neither it nor a failure of the
    store's [put] changes the reply the turn returns; a failure of the
    profile lookup makes the profile-fetch node return the empty update. *)
Theorem C3_failure_propagation :
  (forall host state config w svc w1,
     getLLMService host w = (Returns svc, w1) ->
     let llm := getModel host svc (modelOf config) in
     let input := turnInput host state config in
     let ran := conversationNode host state config w in
     let namespace := ["memories"; resolveClientId config] in
     (forall e,
        provider host llm input = Throws e ->
        fst ran = Throws e /\ putsOf (trace (snd ran)) = putsOf (trace w))
     /\ (forall st e r,
           store config = Some st ->
           search st namespace 10 = Throws e ->
           provider host llm input = Returns r ->
           retrievedText config = ""
           /\ fst ran
              = Returns {| upd_messages := Some [r]; upd_user := None |})
     /\ (forall st e r,
           store config = Some st ->
           (forall key item, put st namespace key item = Throws e) ->
           provider host llm input = Returns r ->
           fst ran
           = Returns {| upd_messages := Some [r]; upd_user := None |}))
  /\ (forall host state config w s w2 cid e,
        getSembleService host w = (Returns s, w2) ->
        match configurable config with
        | Some c => clientId c
        | None => None
        end = Some cid ->
        cid <> "" ->
        getUser s cid = Throws e ->
        fst (fetchUserNode host state config w) = Returns emptyUpdate).
Proof.
  split.
  - intros host state config w svc w1 Hsvc llm input ran namespace.
    subst ran.
    rewrite (conversationNode_run host state config w w1 svc Hsvc).
    fold llm input.
    destruct (getLLMService_frame host w w1 _ Hsvc) as [Ht _].
    split; [| split].
    + intros e ->. cbn [fst snd after trace]. split; [reflexivity |].
      rewrite !putsOf_app, putsOf_searchEvents, Ht. cbn.
      now rewrite app_nil_r.
    + intros st e r Hst Hsearch ->. split; [| reflexivity].
      unfold retrievedText, getMemoryNamespace. fold namespace.
      now rewrite Hst, Hsearch.
    + intros st e r _ _ ->. reflexivity.
  - intros host state config w s w2 cid e Hs Hcid Hne Hthrow.
    unfold fetchUserNode, bind at 1. rewrite Hs, Hcid.
    apply eqb_empty_false in Hne. cbn [Js.truthy Js.nullish]. rewrite Hne.
    cbn [negb]. run_monad. now rewrite Hthrow.
Qed.

(** The provider is down: the turn fails with the provider's error.  The
    real profile source always throws: the fetch node returns [{}]. *)
Lemma C3_witness_provider_down_and_profile_down :
  fst (conversationNode Fixture.providerDown
         (Fixture.stateOf [Fixture.says human "remember me"])
         (Fixture.bareConfig (Some (Fixture.storeWith []))) initialWorld)
  = Throws (Error "503 Service Unavailable")
  /\ fst (fetchUserNode Fixture.unconfigured (Fixture.stateOf [])
            (Fixture.configFor (Some "c1") None) initialWorld)
     = Returns emptyUpdate.
Proof.
  destruct C3_failure_propagation as [Hturn Hfetch]. split.
  - destruct (Hturn Fixture.providerDown
                (Fixture.stateOf [Fixture.says human "remember me"])
                (Fixture.bareConfig (Some (Fixture.storeWith [])))
                initialWorld
                {| apiKey := "sk-test"; baseURL := DEFAULT_BASE_URL |}
                {| sembleService := None;
                   llmService := Some {| apiKey := "sk-test";
                                         baseURL := DEFAULT_BASE_URL |};
                   clockReads := 0; trace := [] |}
                eq_refl) as [Hllm _].
    apply (Hllm (Error "503 Service Unavailable")). reflexivity.
  - apply (Hfetch Fixture.unconfigured (Fixture.stateOf [])
             (Fixture.configFor (Some "c1") None) initialWorld
             RealSembleService
             {| sembleService := Some RealSembleService; llmService := None;
                clockReads := 0; trace := [] |}
             "c1" (Error "Real Semble integration not implemented yet"));
      [reflexivity | reflexivity | discriminate | reflexivity].
Defined.

(* ===================================================================== *)
(** ** Which message the write policy examines *)
(* ===================================================================== *)

(** C4, as the specification words it, fails: the incoming list ends with an
    assistant message that mentions the word, the last user-authored message
    ("hi") does not; the policy examines and stores the assistant's text. *)
Lemma C4_counterexample_examines_assistant_message :
  let msgs := [Fixture.says human "hi";
               Fixture.says ai "I will REMEMBER that"] in
  Spec.plainText (Spec.lastUserAuthored msgs) = Some "hi"
  /\ examinedContent msgs <> "hi"
  /\ putsOf (trace (snd (conversationNode Fixture.answering
         (Fixture.stateOf msgs)
         (Fixture.bareConfig (Some (Fixture.storeWith []))) initialWorld)))
     = [(["memories"; "default"], "mem_1700000000000",
         {| text := "I will REMEMBER that";
            createdAt := "2023-11-14T22:13:20.001Z" |})].
Proof.
  cbn zeta. split; [reflexivity |]. split; [discriminate | reflexivity].
Qed.

Lemma lastUserAuthored_snoc (front : list BaseMessage) (m : BaseMessage) :
  getType m = human -> Spec.lastUserAuthored (front ++ [m])%list = Some m.
Proof.
  intros H. unfold Spec.lastUserAuthored.
  rewrite filter_app. cbn [filter]. rewrite H. apply at_last_snoc.
Qed.

(** C4, amended. The write policy examines the last message of the incoming
    list, whatever its author and whatever precedes it; the text it stores is
    that message's text, so it does not depend on the reply of this turn;
    when the incoming list ends with a user-authored message, that message
    is the last user-authored one. *)
Theorem C4_policy_examines_last_incoming_message :
  (forall front m,
     examinedContent (front ++ [m])%list
     = match content m with Text s => s | Blocks _ => "" end)
  /\ examinedContent [] = ""
  /\ (forall front m,
        getType m = human ->
        Spec.lastUserAuthored (front ++ [m])%list = Some m)
  /\ (forall h1 h2 state config w svc1 svc2 w1 w2 r1 r2,
        clock h1 = clock h2 ->
        toISOString h1 = toISOString h2 ->
        getLLMService h1 w = (Returns svc1, w1) ->
        getLLMService h2 w = (Returns svc2, w2) ->
        provider h1 (getModel h1 svc1 (modelOf config))
                 (turnInput h1 state config) = Returns r1 ->
        provider h2 (getModel h2 svc2 (modelOf config))
                 (turnInput h2 state config) = Returns r2 ->
        putsOf (trace (snd (conversationNode h1 state config w)))
        = putsOf (trace (snd (conversationNode h2 state config w)))
        /\ forall p,
             In p (putsOf (trace (snd (conversationNode h1 state config w))))
             -> In p (putsOf (trace w))
                \/ text (snd p) = examinedContent (messages state)).
Proof.
  split; [| split; [reflexivity | split; [exact lastUserAuthored_snoc |]]].
  - intros front m. unfold examinedContent. now rewrite at_last_snoc.
  - intros h1 h2 state config w svc1 svc2 w1 w2 r1 r2 Hc Hi H1 H2 Hr1 Hr2.
    rewrite (conversationNode_puts h1 state config w w1 svc1 r1 H1 Hr1).
    rewrite (conversationNode_puts h2 state config w w2 svc2 r2 H2 Hr2).
    unfold policyPut. rewrite Hc, Hi. split; [reflexivity |].
    intros p Hp. apply in_app_or in Hp as [Hp | Hp]; [now left | right].
    destruct (policyFires state config); [| contradiction].
    destruct Hp as [<- | []]. reflexivity.
Qed.

(** Two providers that answer differently: the same [put] either way. *)
Lemma C4_witness_reply_independent :
  putsOf (trace (snd (conversationNode Fixture.answering
     (Fixture.stateOf [Fixture.says human "remember the milk"])
     (Fixture.bareConfig (Some (Fixture.storeWith []))) initialWorld)))
  = putsOf (trace (snd (conversationNode Fixture.answeringOtherwise
     (Fixture.stateOf [Fixture.says human "remember the milk"])
     (Fixture.bareConfig (Some (Fixture.storeWith []))) initialWorld)))
  /\ Spec.lastUserAuthored
       ([Fixture.says ai "hello"]
          ++ [Fixture.says human "remember the milk"])%list
     = Some (Fixture.says human "remember the milk").
Proof.
  destruct C4_policy_examines_last_incoming_message as (_ & _ & Hlast & Hind).
  split.
  - apply (Hind Fixture.answering Fixture.answeringOtherwise
             (Fixture.stateOf [Fixture.says human "remember the milk"])
             (Fixture.bareConfig (Some (Fixture.storeWith []))) initialWorld
             Fixture.builtService Fixture.builtService
             Fixture.worldWithService Fixture.worldWithService
             Fixture.reply Fixture.otherReply); reflexivity.
  - apply Hlast. reflexivity.
Defined.

(* ===================================================================== *)
(** ** The state update of a turn *)
(* ===================================================================== *)

(** A turn that returns does so with the provider's reply as its only
    message and no [user] key. *)
Lemma conversationNode_returns (host : Host) (state : AgentStateType)
    (config : LangGraphRunnableConfig) (w w' : World)
    (upd : AgentStateUpdate) :
  conversationNode host state config w = (Returns upd, w') ->
  exists svc w1 r,
    getLLMService host w = (Returns svc, w1)
    /\ provider host (getModel host svc (modelOf config))
                (turnInput host state config) = Returns r
    /\ upd = {| upd_messages := Some [r]; upd_user := None |}.
Proof.
  intros H. destruct (getLLMService host w) as [[svc|e] w1] eqn:Hsvc.
  - rewrite (conversationNode_run host state config w w1 svc Hsvc) in H.
    destruct (provider host _ _) as [r|e] eqn:Hr; [| discriminate].
    injection H as <- _. now exists svc, w1, r.
  - rewrite (conversationNode_unresolved host state config w w1 e Hsvc) in H.
    discriminate.
Qed.

Lemma nth_error_app_left {A} (xs ys : list A) (i : nat) (x : A) :
  nth_error xs i = Some x -> nth_error (xs ++ ys)%list i = Some x.
Proof.
  intros H. rewrite nth_error_app1; [assumption |].
  apply nth_error_Some. congruence.
Qed.

(** C5. The update a turn returns carries exactly one message, and merging
    it through the messages reducer appends that message to the sequence:
    the length grows by one and every earlier entry keeps its position.  The
    reducer never shortens or reorders what was there. *)
Theorem C5_one_message_appended
    (host : Host) (state : AgentStateType) (config : LangGraphRunnableConfig)
    (w w' : World) (upd : AgentStateUpdate) :
  conversationNode host state config w = (Returns upd, w') ->
  let merged := messages (applyUpdate state upd) in
  (exists r,
     upd_messages upd = Some [r]
     /\ merged = (messages state ++ [r])%list)
  /\ List.length merged = S (List.length (messages state))
  /\ (forall i m,
        nth_error (messages state) i = Some m -> nth_error merged i = Some m)
  /\ firstn (List.length (messages state)) merged = messages state
  /\ (forall current update,
        firstn (List.length current) (messagesStateReducer current update)
        = current).
Proof.
  intros H.
  destruct (conversationNode_returns host state config w w' upd H)
    as (svc & w1 & r & _ & _ & ->).
  cbn. unfold messagesStateReducer. split; [| split; [| split; [| split]]].
  - now exists r.
  - rewrite length_app. cbn. lia.
  - intros i m. apply nth_error_app_left.
  - rewrite firstn_app, Nat.sub_diag, firstn_all. cbn. apply app_nil_r.
  - intros current update.
    rewrite firstn_app, Nat.sub_diag, firstn_all. cbn. apply app_nil_r.
Qed.

Lemma C5_witness_second_turn :
  messages (applyUpdate
     (Fixture.stateOf [Fixture.says human "hi"; Fixture.says ai "hello";
                       Fixture.says human "bye"])
     {| upd_messages := Some [Fixture.reply]; upd_user := None |})
  = [Fixture.says human "hi"; Fixture.says ai "hello";
     Fixture.says human "bye"; Fixture.reply].
Proof.
  destruct (C5_one_message_appended Fixture.answering
      (Fixture.stateOf [Fixture.says human "hi"; Fixture.says ai "hello";
                        Fixture.says human "bye"])
      (Fixture.bareConfig None) initialWorld
      (snd (conversationNode Fixture.answering
              (Fixture.stateOf [Fixture.says human "hi";
                                Fixture.says ai "hello";
                                Fixture.says human "bye"])
              (Fixture.bareConfig None) initialWorld))
      {| upd_messages := Some [Fixture.reply]; upd_user := None |}
      eq_refl) as ((r & Hr & Hm) & _).
  injection Hr as <-. exact Hm.
Defined.

(** C9. The update a turn returns names the [messages] channel only: its
    [user] key is absent, so merging it leaves the profile of the state as it
    was.  The [user] channel merges by [new ?? old], and the profile-fetch
    node is the one that writes it; that node never names [messages]. *)
Theorem C9_turn_leaves_profile_unchanged :
  (forall host state config w w' upd,
     conversationNode host state config w = (Returns upd, w') ->
     upd_user upd = None
     /\ upd_messages upd <> None
     /\ user (applyUpdate state upd) = user state)
  /\ (forall old new, userReducer old (Some new) = Some new)
  /\ (forall old, userReducer old None = old)
  /\ (forall host state config w w' upd,
        fetchUserNode host state config w = (Returns upd, w') ->
        upd_messages upd = None
        /\ messages (applyUpdate state upd) = messages state).
Proof.
  split; [| split; [reflexivity | split; [reflexivity |]]].
  - intros host state config w w' upd H.
    destruct (conversationNode_returns host state config w w' upd H)
      as (svc & w1 & r & _ & _ & ->).
    cbn. split; [reflexivity | split; [discriminate | reflexivity]].
  - intros host state config w w' upd.
    unfold fetchUserNode, bind at 1.
    destruct (getSembleService_returns host w) as (s & w2 & -> & _).
    destruct (negb _).
    + unfold ret. intros H. injection H as <- _. now split.
    + run_monad. destruct (getUser s _) as [[p|]|e];
        intros H; injection H as <- _; now split.
Qed.

Lemma C9_witness_profile_kept :
  user (applyUpdate
          {| messages := [Fixture.says human "hi"];
             user := Some Fixture.jane |}
          {| upd_messages := Some [Fixture.reply]; upd_user := None |})
  = Some Fixture.jane.
Proof.
  destruct C9_turn_leaves_profile_unchanged as (H & _).
  destruct (H Fixture.answering
              {| messages := [Fixture.says human "hi"];
                 user := Some Fixture.jane |}
              (Fixture.bareConfig None) initialWorld
              (snd (conversationNode Fixture.answering
                      {| messages := [Fixture.says human "hi"];
                         user := Some Fixture.jane |}
                      (Fixture.bareConfig None) initialWorld))
              {| upd_messages := Some [Fixture.reply]; upd_user := None |}
              eq_refl) as (_ & _ & Hu).
  exact Hu.
Defined.

(* ===================================================================== *)
(** ** Prompt assembly *)
(* ===================================================================== *)

Lemma getSystemPrompt_effective (host : Host) (override : option string) :
  getSystemPrompt host override
  = Spec.effectiveInstruction override (SYSTEM_PROMPT (env host)).
Proof.
  unfold getSystemPrompt, Spec.effectiveInstruction.
  now destruct override, (SYSTEM_PROMPT (env host)).
Qed.

Lemma filterBoolean_kept (s : string) (rest : list (option string)) :
  (s =? "") = false ->
  Js.filterBoolean (Some s :: rest) = s :: Js.filterBoolean rest.
Proof. intros H. cbn. now rewrite H. Qed.

(** A guarded line of the array literal, after [filter(Boolean)]. *)
Lemma guarded_line (label : string) (field : option string)
    (rest : list (option string)) :
  label <> "" ->
  Js.filterBoolean
    ((if Js.truthy field
      then Some (label ++ ": " ++ Js.interpolate field) else None) :: rest)
  = (Spec.fieldLine label field ++ Js.filterBoolean rest)%list.
Proof.
  intros Hl. destruct field as [v|]; cbn; [| reflexivity].
  destruct (v =? ""); cbn; [reflexivity |].
  destruct label; [contradiction | reflexivity].
Qed.

Lemma userDetails_profileLines (p : Patient) :
  Js.filterBoolean (userDetailLines p) = Spec.profileLines p.
Proof.
  unfold userDetailLines, Spec.profileLines.
  rewrite filterBoolean_kept by reflexivity.
  fold (Spec.nameLine p). f_equal.
  change ("Email: " ++ Js.interpolate (email p))
    with ("Email" ++ ": " ++ Js.interpolate (email p)).
  change ("DOB: " ++ Js.interpolate (dob p))
    with ("DOB" ++ ": " ++ Js.interpolate (dob p)).
  change ("Gender: " ++ Js.interpolate (gender p))
    with ("Gender" ++ ": " ++ Js.interpolate (gender p)).
  rewrite !guarded_line by discriminate.
  cbn [Js.filterBoolean]. now rewrite app_nil_r.
Qed.

Lemma systemPromptText_systemText (host : Host) (memories : option string)
    (profile : option Patient) (override : option string) :
  systemPromptText host memories profile override
  = Spec.systemText override (SYSTEM_PROMPT (env host)) profile memories.
Proof.
  unfold systemPromptText, Spec.systemText, Spec.memoryBlock.
  rewrite getSystemPrompt_effective.
  set (base := Spec.effectiveInstruction _ _).
  assert (Hp : match profile with
               | Some u =>
                   base ++ Js.LF ++ Js.LF
                     ++ "Here is some information about the user you are talking to:"
                     ++ Js.LF
                     ++ Js.join Js.LF (Js.filterBoolean (userDetailLines u))
               | None => base
               end = base ++ Spec.profileBlock profile).
  { destruct profile as [u|]; cbn [Spec.profileBlock].
    - rewrite userDetails_profileLines. unfold Spec.profileHeader.
      now rewrite !append_assoc.
    - now rewrite append_empty_r. }
  rewrite Hp. destruct memories as [t|]; cbn [Js.truthy Js.interpolate].
  - destruct (t =? ""); cbn [negb].
    + now rewrite !append_empty_r.
    + unfold Spec.memoryHeader. now rewrite !append_assoc.
  - now rewrite !append_empty_r.
Qed.

(** C6. The system message is the effective instruction (the per-call
    override, else the process default, else "You are a helpful assistant."),
    then, with a profile, the header "\n\nHere is some information about the
    user you are talking to:\n" and the newline-joined lines User Name,
    Email, DOB, Gender in that order, a line being there only when its field
    is (a field holds a non-empty string or counts as absent), then, with a
    non-empty memory text, "\n\nWhat you remember about this user:\n" and that
    text verbatim.  The profile Jane Doe without email, date of birth and
    gender gives the single line "User Name: Jane Doe". *)
Theorem C6_system_message_assembly :
  (forall host memories profile override,
     createSystemMessage host memories profile override
     = {| getType := system;
          content :=
            Text (Spec.systemText override (SYSTEM_PROMPT (env host))
                                  profile memories) |})
  /\ (forall i a ph,
        let janeDoe :=
          {| id := i; firstName := Some "Jane"; lastName := Some "Doe";
             email := None; dob := None; gender := None;
             address := a; phones := ph |} in
        Js.filterBoolean (userDetailLines janeDoe) = ["User Name: Jane Doe"]
        /\ forall host,
             SYSTEM_PROMPT (env host) = None ->
             systemPromptText host (Some "") (Some janeDoe) None
             = "You are a helpful assistant." ++ Js.LF ++ Js.LF
               ++ "Here is some information about the user you are talking to:"
               ++ Js.LF ++ "User Name: Jane Doe").
Proof.
  split.
  - intros host memories profile override.
    unfold createSystemMessage, SystemMessage.
    now rewrite systemPromptText_systemText.
  - intros i a ph janeDoe. split; [reflexivity |].
    intros host Henv. rewrite systemPromptText_systemText, Henv. reflexivity.
Qed.

Lemma C6_witness_jane :
  systemPromptText Fixture.answering (Some "") (Some Fixture.jane) None
  = "You are a helpful assistant." ++ Js.LF ++ Js.LF
    ++ "Here is some information about the user you are talking to:"
    ++ Js.LF ++ "User Name: Jane Doe".
Proof.
  destruct C6_system_message_assembly as (_ & H).
  destruct (H "p1" None None) as (_ & Hj).
  apply (Hj Fixture.answering). reflexivity.
Defined.

Lemma join_cons_split (sep x : string) (xs : list string) :
  exists rest,
    Js.join sep (x :: xs) = x ++ rest
    /\ (rest = "" \/ exists tail, rest = sep ++ tail).
Proof.
  destruct xs as [|y ys].
  - exists "". cbn. split; [now rewrite append_empty_r | now left].
  - exists (sep ++ Js.join sep (y :: ys)). split; [reflexivity | right].
    now eexists.
Qed.

(** C10. With a profile the system message always carries the line
    "User Name: <firstName> <lastName>", right after the profile header and
    as a line of its own: nothing tests the two fields, and a missing one
    prints as "undefined"; Email, DOB and Gender lines appear only for fields
    that are there. *)
Theorem C10_user_name_line_unconditional
    (host : Host) (memories : option string) (p : Patient)
    (override : option string) :
  (exists rest,
     systemPromptText host memories (Some p) override
     = getSystemPrompt host override ++ Spec.profileHeader
         ++ ("User Name: " ++ Js.interpolate (firstName p) ++ " "
                           ++ Js.interpolate (lastName p))
         ++ rest
     /\ (rest = "" \/ exists tail, rest = Js.LF ++ tail))
  /\ (firstName p = None ->
      Spec.nameLine p = "User Name: undefined " ++ Js.interpolate (lastName p))
  /\ (lastName p = None ->
      Spec.nameLine p
      = "User Name: " ++ Js.interpolate (firstName p) ++ " undefined")
  /\ (email p = None -> dob p = None -> gender p = None ->
      Js.filterBoolean (userDetailLines p) = [Spec.nameLine p]).
Proof.
  split; [| split; [| split]].
  - rewrite systemPromptText_systemText.
    unfold Spec.systemText, Spec.profileBlock, Spec.profileLines.
    rewrite <- getSystemPrompt_effective.
    destruct (join_cons_split Js.LF (Spec.nameLine p)
                (Spec.fieldLine "Email" (email p)
                 ++ Spec.fieldLine "DOB" (dob p)
                 ++ Spec.fieldLine "Gender" (gender p))%list)
      as (more & -> & Hmore).
    exists (more ++ Spec.memoryBlock memories).
    split; [unfold Spec.nameLine; now rewrite !append_assoc |].
    destruct Hmore as [-> | [tail ->]].
    + cbn [append]. unfold Spec.memoryBlock.
      destruct memories as [t|]; [| now left].
      destruct (t =? ""); [now left | right].
      unfold Spec.memoryHeader. rewrite append_assoc. now eexists.
    + right. rewrite append_assoc. now eexists.
  - unfold Spec.nameLine. now intros ->.
  - unfold Spec.nameLine. now intros ->.
  - intros He Hd Hg. rewrite userDetails_profileLines.
    unfold Spec.profileLines. now rewrite He, Hd, Hg.
Qed.

Lemma C10_witness_no_first_name :
  Spec.nameLine
    {| id := "p2"; firstName := None; lastName := Some "Doe";
       email := Some "doe@example.com"; dob := None; gender := None;
       address := None; phones := None |}
  = "User Name: undefined Doe".
Proof.
  destruct (C10_user_name_line_unconditional Fixture.answering None
      {| id := "p2"; firstName := None; lastName := Some "Doe";
         email := Some "doe@example.com"; dob := None; gender := None;
         address := None; phones := None |} None) as (_ & H & _).
  apply H. reflexivity.
Defined.

(* ===================================================================== *)
(** ** A configuration without a client id *)
(* ===================================================================== *)

Lemma searchesOf_searchEvents (config : LangGraphRunnableConfig) :
  searchesOf (searchEvents config)
  = match store config with
    | Some _ => [(["memories"; resolveClientId config], 10)]
    | None => []
    end.
Proof. unfold searchEvents. now destruct (store config). Qed.

Lemma searchesOf_policyEvents (host : Host) (state : AgentStateType)
    (config : LangGraphRunnableConfig) (reads : nat) :
  searchesOf (policyEvents host state config reads) = [].
Proof. unfold policyEvents. now destruct (policyFires state config). Qed.

Lemma resolveClientId_default (config : LangGraphRunnableConfig) :
  Spec.lacksClientId config -> resolveClientId config = "default".
Proof.
  unfold Spec.lacksClientId, resolveClientId.
  destruct (configurable config) as [c|]; [now intros -> | reflexivity].
Qed.

(** C7, as the specification words it, fails for the profile lookup: on a
    configuration without a client id the profile-fetch node makes no lookup
    at all, so none with "default". *)
Lemma C7_counterexample_no_lookup_with_default :
  let config := Fixture.bareConfig None in
  let ran :=
    fetchUserNode Fixture.answering (Fixture.stateOf []) config initialWorld in
  Spec.lacksClientId config
  /\ lookupsOf (trace (snd ran)) = []
  /\ ~ In "default" (lookupsOf (trace (snd ran))).
Proof.
  cbn zeta. split; [exact I |]. split; [reflexivity |]. intros [].
Qed.

(** C7, amended. When the configuration has no client id, the conversation
    node resolves it to "default" without failing: the memory search and the
    memory write use the namespace [["memories"; "default"]].  The
    profile-fetch node does not look a profile up: it returns the empty
    update without calling the profile source. *)
Theorem C7_missing_client_id
    (config : LangGraphRunnableConfig) :
  Spec.lacksClientId config ->
  resolveClientId config = "default"
  /\ (forall host state w svc w1 r,
        getLLMService host w = (Returns svc, w1) ->
        provider host (getModel host svc (modelOf config))
                 (turnInput host state config) = Returns r ->
        let ran := conversationNode host state config w in
        fst ran = Returns {| upd_messages := Some [r]; upd_user := None |}
        /\ searchesOf (trace (snd ran))
           = (searchesOf (trace w)
              ++ match store config with
                 | Some _ => [(["memories"; "default"], 10)]
                 | None => []
                 end)%list
        /\ putsOf (trace (snd ran))
           = (putsOf (trace w)
              ++ if policyFires state config
                 then [(["memories"; "default"],
                        ("mem_" ++ Js.numberToString
                                     (clock host (clockReads w)))%string,
                        {| text := examinedContent (messages state);
                           createdAt :=
                             toISOString host
                               (clock host (S (clockReads w))) |})]
                 else [])%list)
  /\ (forall host state w,
        let ran := fetchUserNode host state config w in
        fst ran = Returns emptyUpdate
        /\ lookupsOf (trace (snd ran)) = lookupsOf (trace w)).
Proof.
  intros Hlack. pose proof (resolveClientId_default config Hlack) as Hcid.
  split; [assumption | split].
  - intros host state w svc w1 r Hsvc Hr. cbn zeta.
    rewrite (conversationNode_puts host state config w w1 svc r Hsvc Hr).
    rewrite (conversationNode_run host state config w w1 svc Hsvc), Hr.
    destruct (getLLMService_frame host w w1 _ Hsvc) as [Ht _].
    cbn [fst snd after trace]. split; [reflexivity |].
    rewrite !searchesOf_app, searchesOf_searchEvents,
      searchesOf_policyEvents, Ht, Hcid.
    unfold policyPut. split; [| reflexivity].
    cbn. now rewrite app_nil_r.
  - intros host state w. cbn zeta.
    destruct (getSembleService_returns host w) as (s & w2 & Hs & Ht).
    assert (E : match configurable config with
                | Some c => clientId c
                | None => None
                end = None).
    { unfold Spec.lacksClientId in Hlack.
      now destruct (configurable config). }
    assert (Hrun : fetchUserNode host state config w
                   = (Returns emptyUpdate, w2)).
    { unfold fetchUserNode, bind. rewrite Hs, E. reflexivity. }
    rewrite Hrun. cbn [fst snd]. now rewrite Ht.
Qed.

Lemma C7_witness_default_namespace :
  searchesOf (trace (snd (conversationNode Fixture.answering
     (Fixture.stateOf [Fixture.says human "hello"])
     (Fixture.bareConfig (Some (Fixture.storeWith []))) initialWorld)))
  = [(["memories"; "default"], 10)]
  /\ fst (fetchUserNode Fixture.answering (Fixture.stateOf [])
            (Fixture.bareConfig (Some (Fixture.storeWith []))) initialWorld)
     = Returns emptyUpdate.
Proof.
  destruct (C7_missing_client_id
              (Fixture.bareConfig (Some (Fixture.storeWith []))) I)
    as (_ & Hturn & Hfetch).
  split.
  - destruct (Hturn Fixture.answering
                (Fixture.stateOf [Fixture.says human "hello"]) initialWorld
                Fixture.builtService Fixture.worldWithService Fixture.reply
                eq_refl eq_refl) as (_ & Hs & _).
    exact Hs.
  - apply (Hfetch Fixture.answering (Fixture.stateOf []) initialWorld).
Defined.

(* ===================================================================== *)
(** ** The provider credential *)
(* ===================================================================== *)

(** C8, as the specification words it, fails: without the credential the
    process starts -- loading the entry module returns, with both registry
    slots empty -- and the configuration error is raised at call time, by the
    first turn; it is not fatal to the process either, since the next turn,
    run with the credential set, returns the reply. *)
Lemma C8_counterexample_error_raised_by_first_turn :
  let state := Fixture.stateOf [Fixture.says human "hello"] in
  let config := Fixture.bareConfig None in
  (exists graph, loadAgent None = Returns (graph, initialWorld))
  /\ llmService initialWorld = None
  /\ conversationNode Fixture.unconfigured state config initialWorld
     = (Throws (Error "OPENROUTER_API_KEY environment variable is required."),
        initialWorld)
  /\ fst (conversationNode Fixture.answering state config
            (snd (conversationNode Fixture.unconfigured state config
                    initialWorld)))
     = Returns {| upd_messages := Some [Fixture.reply]; upd_user := None |}.
Proof.
  cbn zeta. split; [eexists; reflexivity |].
  split; [reflexivity | split; reflexivity].
Qed.

(** C8, amended. Without the credential -- [OPENROUTER_API_KEY] unset or
    empty -- constructing the LLM service throws the configuration error.
    The service is constructed on first use, not at process startup: loading
    the entry module returns whatever the credential and leaves the registry
    empty; the registry throws the error when a turn first asks for the
    service, so that turn ends with it, before any call to the store or the
    chat provider and with the registry still empty, and a later turn with
    the credential set builds the service.  With the credential, construction
    returns a service that holds it, the registry returns a service in every
    state, and resolving a model from a service is total: override, else
    [MODEL_NAME], else the default model. *)
Theorem C8_credential_checked_at_first_use (host : Host) :
  let key := OPENROUTER_API_KEY (env host) in
  let missing :=
    Error "OPENROUTER_API_KEY environment variable is required." in
  (forall url, exists graph, loadAgent url = Returns (graph, initialWorld))
  /\ llmService initialWorld = None
  /\ (Js.truthy key = false ->
      newOpenRouterLLMService host = Throws missing
      /\ (forall w, llmService w = None ->
                    getLLMService host w = (Throws missing, w))
      /\ (forall state config w,
            llmService w = None ->
            conversationNode host state config w = (Throws missing, w)
            /\ forall later k,
                 OPENROUTER_API_KEY (env later) = Some k -> k <> "" ->
                 exists svc w1,
                   getLLMService later
                     (snd (conversationNode host state config w))
                   = (Returns svc, w1)
                   /\ apiKey svc = k))
  /\ (forall k,
        key = Some k -> k <> "" ->
        (exists svc,
           newOpenRouterLLMService host = Returns svc /\ apiKey svc = k)
        /\ (forall w, exists svc w1,
              getLLMService host w = (Returns svc, w1)
              /\ trace w1 = trace w)
        /\ (forall svc name,
              getModel host svc name
              = {| chat_model :=
                     match name, MODEL_NAME (env host) with
                     | Some n, _ => n
                     | None, Some n => n
                     | None, None => "google/gemini-2.5-flash-lite"
                     end;
                   chat_apiKey := apiKey svc;
                   chat_baseURL := baseURL svc |})).
Proof.
  cbn zeta. split; [intros url; eexists; reflexivity |].
  split; [reflexivity |]. split.
  - intros Hkey.
    assert (Hnew : newOpenRouterLLMService host
                   = Throws (Error
                       "OPENROUTER_API_KEY environment variable is required.")).
    { unfold newOpenRouterLLMService. now rewrite Hkey. }
    assert (Hreg : forall w, llmService w = None ->
              getLLMService host w
              = (Throws (Error
                   "OPENROUTER_API_KEY environment variable is required."), w)).
    { intros w Hw. unfold getLLMService, createLLMService.
      now rewrite Hw, Hnew. }
    split; [assumption | split; [assumption |]].
    intros state config w Hw.
    assert (Hturn : conversationNode host state config w
                    = (Throws (Error
                         "OPENROUTER_API_KEY environment variable is required."),
                       w)).
    { apply conversationNode_unresolved. now apply Hreg. }
    split; [assumption |].
    intros later k Hk Hne. rewrite Hturn. cbn [snd].
    unfold getLLMService, createLLMService, newOpenRouterLLMService.
    rewrite Hw, Hk. apply eqb_empty_false in Hne. cbn. rewrite Hne. cbn.
    eexists _, _. split; reflexivity.
  - intros k Hk Hne. apply eqb_empty_false in Hne.
    assert (Hnew : newOpenRouterLLMService host
                   = Returns {| apiKey := k;
                                baseURL := Js.nullish
                                  (OPENROUTER_BASE_URL (env host))
                                  DEFAULT_BASE_URL |}).
    { unfold newOpenRouterLLMService. rewrite Hk. cbn. now rewrite Hne. }
    split; [| split].
    + eexists. split; [exact Hnew | reflexivity].
    + intros w. unfold getLLMService, createLLMService.
      destruct (llmService w) as [s|].
      * now exists s, w.
      * rewrite Hnew. eexists _, _. split; reflexivity.
    + intros svc name. unfold getModel, DEFAULT_MODEL.
      now destruct name, (MODEL_NAME (env host)).
Qed.

(** The first turn without the key fails and leaves the registry empty; the
    key is then set and the registry builds the service.  With the key,
    construction returns a service holding it. *)
Lemma C8_witness_first_use :
  (exists svc w1,
     getLLMService Fixture.answering
       (snd (conversationNode Fixture.unconfigured
               (Fixture.stateOf [Fixture.says human "hello"])
               (Fixture.bareConfig (Some Fixture.storeDown)) initialWorld))
     = (Returns svc, w1)
     /\ apiKey svc = "sk-test")
  /\ exists svc,
       newOpenRouterLLMService Fixture.answering = Returns svc
       /\ apiKey svc = "sk-test".
Proof.
  split.
  - destruct (C8_credential_checked_at_first_use Fixture.unconfigured)
      as (_ & _ & H & _).
    destruct (H eq_refl) as (_ & _ & Hturn).
    destruct (Hturn (Fixture.stateOf [Fixture.says human "hello"])
                (Fixture.bareConfig (Some Fixture.storeDown)) initialWorld
                eq_refl) as (_ & Hlater).
    apply (Hlater Fixture.answering "sk-test"); [reflexivity | discriminate].
  - destruct (C8_credential_checked_at_first_use Fixture.answering)
      as (_ & _ & _ & H).
    destruct (H "sk-test" eq_refl) as (Hnew & _); [discriminate |].
    exact Hnew.
Defined.

(* ===================================================================== *)
(** ** The provider registry *)
(* ===================================================================== *)

Lemma lookupsOf_app (a b : list Event) :
  lookupsOf (a ++ b)%list = (lookupsOf a ++ lookupsOf b)%list.
Proof.
  induction a as [|[] a IH]; simpl; try assumption; [reflexivity |].
  now rewrite IH.
Qed.

(** X1. Once the LLM service has been built, the registry hands out that
    same service and changes nothing, whatever the environment says by then.
    A construction that failed is not remembered: the registry is left as it
    was, and a later call with the credential in place builds the service. *)
Theorem X1_llm_service_cached_failure_not_cached :
  (forall host host' w svc w1,
     getLLMService host w = (Returns svc, w1) ->
     llmService w1 = Some svc
     /\ getLLMService host' w1 = (Returns svc, w1))
  /\ (forall host w e w1,
        getLLMService host w = (Throws e, w1) ->
        w1 = w
        /\ llmService w = None
        /\ forall host' k,
             OPENROUTER_API_KEY (env host') = Some k -> k <> "" ->
             exists svc w2,
               getLLMService host' w1 = (Returns svc, w2)
               /\ apiKey svc = k /\ llmService w2 = Some svc).
Proof.
  split.
  - intros host host' w svc w1. unfold getLLMService.
    destruct (llmService w) as [s|] eqn:Hw.
    + intros H. injection H as <- <-. now rewrite Hw.
    + destruct (createLLMService host) as [s|e]; [| discriminate].
      intros H. injection H as <- <-. cbn. auto.
  - intros host w e w1. unfold getLLMService.
    destruct (llmService w) as [s|] eqn:Hw; [discriminate |].
    destruct (createLLMService host) as [s|e0]; [discriminate |].
    intros H. injection H as _ <-. split; [reflexivity | split; [reflexivity |]].
    intros host' k Hk Hne. rewrite Hw.
    unfold createLLMService, newOpenRouterLLMService. rewrite Hk.
    apply eqb_empty_false in Hne. cbn. rewrite Hne. cbn.
    eexists _, _. split; [reflexivity | split; reflexivity].
Qed.

(** A first turn without the credential fails; the key is then set and the
    next call builds the service. *)
Lemma X1_witness_retry_after_failure :
  exists svc w2,
    getLLMService Fixture.answering initialWorld = (Returns svc, w2)
    /\ apiKey svc = "sk-test" /\ llmService w2 = Some svc.
Proof.
  destruct X1_llm_service_cached_failure_not_cached as (_ & H).
  destruct (H Fixture.unconfigured initialWorld
              (Error "OPENROUTER_API_KEY environment variable is required.")
              initialWorld eq_refl) as (_ & _ & Hretry).
  apply (Hretry Fixture.answering "sk-test"); [reflexivity | discriminate].
Defined.

(** X2. The profile service is a singleton too: once built, later calls
    return it unchanged even if [USE_MOCK_SEMBLE] has changed.
    [resetProviders] empties both slots and touches nothing else; the next
    use builds each service from the environment of that moment. *)
Theorem X2_semble_service_cached_until_reset :
  (forall host host' w s w1,
     getSembleService host w = (Returns s, w1) ->
     sembleService w1 = Some s
     /\ getSembleService host' w1 = (Returns s, w1))
  /\ (forall host w,
        let w0 := snd (resetProviders w) in
        fst (resetProviders w) = Returns tt
        /\ trace w0 = trace w
        /\ clockReads w0 = clockReads w
        /\ fst (getSembleService host w0) = Returns (createSembleService host)
        /\ fst (getLLMService host w0) = createLLMService host).
Proof.
  split.
  - intros host host' w s w1. unfold getSembleService.
    destruct (sembleService w) as [s0|] eqn:Hw; intros H;
      injection H as <- <-; cbn; [now rewrite Hw | auto].
  - intros host w. cbn. repeat split.
    unfold getLLMService. cbn. now destruct (createLLMService host).
Qed.

Lemma X2_witness_mock_kept_after_env_change :
  getSembleService Fixture.unconfigured
    {| sembleService := Some MockSembleService; llmService := None;
       clockReads := 0; trace := [] |}
  = (Returns MockSembleService,
     {| sembleService := Some MockSembleService; llmService := None;
        clockReads := 0; trace := [] |}).
Proof.
  destruct X2_semble_service_cached_until_reset as (H & _).
  apply (H Fixture.answering Fixture.unconfigured initialWorld
           MockSembleService
           {| sembleService := Some MockSembleService; llmService := None;
              clockReads := 0; trace := [] |} eq_refl).
Defined.

(* ===================================================================== *)
(** ** The profile-fetch node *)
(* ===================================================================== *)

(** X3. On a registry that holds no profile service yet, a fetch for a
    non-empty client id makes one lookup for that id.  When
    [USE_MOCK_SEMBLE] is exactly "false" the real service is chosen, its
    lookup throws and the node returns the empty update, so the profile of
    the state stays.  For any other value the mock is chosen: the node
    returns John Doe's record under the client's id, and merging it replaces
    the profile and leaves the messages alone. *)
Theorem X3_fetch_user_on_fresh_registry
    (host : Host) (state : AgentStateType) (config : LangGraphRunnableConfig)
    (w : World) (cid : string) :
  sembleService w = None ->
  clientIdOf config = Some cid ->
  cid <> "" ->
  let ran := fetchUserNode host state config w in
  lookupsOf (trace (snd ran)) = (lookupsOf (trace w) ++ [cid])%list
  /\ (USE_MOCK_SEMBLE (env host) = Some "false" ->
      fst ran = Returns emptyUpdate
      /\ user (applyUpdate state emptyUpdate) = user state)
  /\ (USE_MOCK_SEMBLE (env host) <> Some "false" ->
      exists p,
        fst ran = Returns {| upd_messages := None; upd_user := Some p |}
        /\ id p = cid
        /\ firstName p = Some "John" /\ lastName p = Some "Doe"
        /\ user (applyUpdate state
                   {| upd_messages := None; upd_user := Some p |}) = Some p
        /\ messages (applyUpdate state
                       {| upd_messages := None; upd_user := Some p |})
           = messages state).
Proof.
  intros Hw Hcid Hne. unfold clientIdOf in Hcid.
  apply eqb_empty_false in Hne. cbn zeta.
  unfold fetchUserNode, bind, getSembleService, tryCatch, emit, complete, ret.
  rewrite Hw, Hcid. cbn [Js.truthy Js.nullish negb]. rewrite Hne.
  cbn [negb]. unfold createSembleService.
  destruct (USE_MOCK_SEMBLE (env host)) as [flag|] eqn:Hflag.
  - destruct (flag =? "false") eqn:Hf; cbn.
    + apply String.eqb_eq in Hf. subst flag.
      rewrite lookupsOf_app. split; [reflexivity |].
      split; [auto | congruence].
    + apply String.eqb_neq in Hf.
      rewrite lookupsOf_app. split; [reflexivity |].
      split; [congruence |]. intros _. eexists. repeat split.
  - cbn. rewrite lookupsOf_app. split; [reflexivity |].
    split; [discriminate |]. intros _. eexists. repeat split.
Qed.

Lemma X3_witness_mock_profile :
  exists p,
    fst (fetchUserNode Fixture.answering (Fixture.stateOf [])
           (Fixture.configFor (Some "user-456") None) initialWorld)
    = Returns {| upd_messages := None; upd_user := Some p |}
    /\ id p = "user-456".
Proof.
  destruct (X3_fetch_user_on_fresh_registry Fixture.answering
              (Fixture.stateOf []) (Fixture.configFor (Some "user-456") None)
              initialWorld "user-456" eq_refl eq_refl)
    as (_ & _ & Hmock); [discriminate |].
  destruct Hmock as (p & Hp & Hid & _); [discriminate |].
  exists p. split; assumption.
Defined.

(** X4. The profile-fetch node never throws, whatever service the registry
    holds and whatever that service does.  Its only outside call is the
    lookup, made once when the client id is a non-empty string and not at all
    otherwise; it reads no clock and leaves the LLM service slot alone. *)
Theorem X4_fetch_user_never_throws
    (host : Host) (state : AgentStateType) (config : LangGraphRunnableConfig)
    (w : World) :
  let ran := fetchUserNode host state config w in
  (exists upd, fst ran = Returns upd)
  /\ trace (snd ran)
     = (trace w
        ++ if Js.truthy (clientIdOf config)
           then [SembleGetUser (Js.nullish (clientIdOf config) "")]
           else [])%list
  /\ clockReads (snd ran) = clockReads w
  /\ llmService (snd ran) = llmService w.
Proof.
  cbn zeta. unfold fetchUserNode, clientIdOf, bind, getSembleService.
  destruct (sembleService w) as [s|];
    (destruct (match configurable config with
               | Some c => clientId c
               | None => None
               end) as [cid|]; cbn [Js.truthy Js.nullish negb];
     [destruct (cid =? ""); cbn [negb] |]);
    try (unfold ret; cbn; rewrite app_nil_r; now eauto);
    run_monad;
    (destruct (getUser _ cid) as [[p|]|e]; cbn; now eauto).
Qed.

(* ===================================================================== *)
(** ** The calls of a turn *)
(* ===================================================================== *)

(** X5. A turn whose chat model resolves makes its outside calls in a fixed
    order: at most one [search] (one exactly when a store is configured, with
    limit 10), then the one call to the chat provider -- the system message
    first, the incoming messages after it, unchanged and in order -- then at
    most one [put], in the namespace of the search.  It never looks a
    profile up and leaves the profile service slot alone. *)
Theorem X5_turn_call_order
    (host : Host) (state : AgentStateType) (config : LangGraphRunnableConfig)
    (w w1 : World) (svc : OpenRouterLLMService) :
  getLLMService host w = (Returns svc, w1) ->
  let ran := conversationNode host state config w in
  let namespace := ["memories"; resolveClientId config] in
  let input :=
    createSystemMessage host (Some (retrievedText config)) (user state)
                        (systemPromptOf config)
    :: messages state in
  exists writes,
    trace (snd ran)
    = (trace w
       ++ match store config with
          | Some _ => [StoreSearch namespace 10]
          | None => []
          end
       ++ [LlmInvoke (getModel host svc (modelOf config)) input]
       ++ writes)%list
    /\ (writes = [] \/ exists key item, writes = [StorePut namespace key item])
    /\ lookupsOf (trace (snd ran)) = lookupsOf (trace w)
    /\ sembleService (snd ran) = sembleService w.
Proof.
  intros Hsvc. cbn zeta.
  rewrite (conversationNode_run host state config w w1 svc Hsvc).
  destruct (getLLMService_frame host w w1 _ Hsvc) as (Ht & _ & Hs).
  fold (turnInput host state config).
  assert (Hsearch : lookupsOf (searchEvents config) = []).
  { unfold searchEvents. now destruct (store config). }
  assert (Hpol : forall n, lookupsOf (policyEvents host state config n) = []).
  { intros n. unfold policyEvents. now destruct (policyFires state config). }
  destruct (provider host _ _) as [r|e]; cbn [snd after trace sembleService].
  - exists (policyEvents host state config (clockReads w1)).
    rewrite !lookupsOf_app, Hsearch, Hpol, Ht, Hs.
    split; [reflexivity | split].
    + unfold policyEvents, policyPut, putEvent.
      destruct (policyFires state config); [right | now left].
      now eexists _, _.
    + split; [| reflexivity]. cbn. now rewrite app_nil_r.
  - exists []. rewrite !lookupsOf_app, Hsearch, Ht, Hs.
    split; [reflexivity | split; [now left |]].
    split; [| reflexivity]. cbn. now rewrite app_nil_r.
Qed.

Lemma X5_witness_turn_trace :
  exists writes,
    trace (snd (conversationNode Fixture.answering
                  (Fixture.stateOf [Fixture.says human "remember tea"])
                  (Fixture.configFor (Some "c1")
                     (Some (Fixture.storeWith [])))
                  initialWorld))
    = ([]
       ++ [StoreSearch ["memories"; "c1"] 10]
       ++ [LlmInvoke
             {| chat_model := "google/gemini-2.5-flash-lite";
                chat_apiKey := "sk-test";
                chat_baseURL := "https://openrouter.ai/api/v1" |}
             [SystemMessage "You are a helpful assistant.";
              Fixture.says human "remember tea"]]
       ++ writes)%list.
Proof.
  destruct (X5_turn_call_order Fixture.answering
              (Fixture.stateOf [Fixture.says human "remember tea"])
              (Fixture.configFor (Some "c1") (Some (Fixture.storeWith [])))
              initialWorld Fixture.worldWithService Fixture.builtService
              eq_refl) as (writes & H & _).
  exists writes. exact H.
Defined.

(** X6. Without a store a turn runs memory-less and its one outside call is
    the call to the chat provider: no [search], no [put], no clock reading.
    The system message then is the effective instruction followed by the
    profile block, with no memory section, and the turn ends the way the
    provider's call ends. *)
Theorem X6_turn_without_store
    (host : Host) (state : AgentStateType) (config : LangGraphRunnableConfig)
    (w w1 : World) (svc : OpenRouterLLMService) :
  store config = None ->
  getLLMService host w = (Returns svc, w1) ->
  let ran := conversationNode host state config w in
  let llm := getModel host svc (modelOf config) in
  let input :=
    SystemMessage
      (Spec.effectiveInstruction (systemPromptOf config)
                                 (SYSTEM_PROMPT (env host))
       ++ Spec.profileBlock (user state))
    :: messages state in
  trace (snd ran) = (trace w ++ [LlmInvoke llm input])%list
  /\ clockReads (snd ran) = clockReads w
  /\ fst ran
     = match provider host llm input with
       | Returns r =>
           Returns {| upd_messages := Some [r]; upd_user := None |}
       | Throws e => Throws e
       end.
Proof.
  intros Hstore Hsvc. cbn zeta.
  rewrite (conversationNode_run host state config w w1 svc Hsvc).
  destruct (getLLMService_frame host w w1 _ Hsvc) as (Ht & Hc & _).
  assert (Hin : turnInput host state config
                = SystemMessage
                    (Spec.effectiveInstruction (systemPromptOf config)
                                               (SYSTEM_PROMPT (env host))
                     ++ Spec.profileBlock (user state))
                  :: messages state).
  { unfold turnInput, createSystemMessage, retrievedText.
    rewrite Hstore, systemPromptText_systemText.
    unfold Spec.systemText. cbn [Spec.memoryBlock String.eqb].
    now rewrite append_empty_r. }
  rewrite Hin. unfold searchEvents, policyEvents, policyReads, policyFires.
  rewrite Hstore.
  destruct (provider host _ _) as [r|e]; cbn [fst snd after trace clockReads];
    rewrite Ht, Hc, Nat.add_0_r; cbn; auto.
Qed.

Lemma X6_witness_no_store :
  trace (snd (conversationNode Fixture.answering
                (Fixture.stateOf [Fixture.says human "remember tea"])
                (Fixture.bareConfig None) initialWorld))
  = [LlmInvoke
       {| chat_model := "google/gemini-2.5-flash-lite";
          chat_apiKey := "sk-test";
          chat_baseURL := "https://openrouter.ai/api/v1" |}
       [SystemMessage "You are a helpful assistant.";
        Fixture.says human "remember tea"]].
Proof.
  destruct (X6_turn_without_store Fixture.answering
              (Fixture.stateOf [Fixture.says human "remember tea"])
              (Fixture.bareConfig None) initialWorld Fixture.worldWithService
              Fixture.builtService eq_refl eq_refl) as (H & _).
  exact H.
Defined.

(** X7. A turn can fail in two ways only: the LLM service cannot be built,
    or the chat provider's call throws; the error of the turn is that error.
    Nothing the store does -- a throwing [search], a throwing [put] -- makes
    a turn fail. *)
Theorem X7_turn_fails_only_on_llm
    (host : Host) (state : AgentStateType) (config : LangGraphRunnableConfig)
    (w : World) (e : JsError) :
  fst (conversationNode host state config w) = Throws e ->
  (exists w1, getLLMService host w = (Throws e, w1))
  \/ (exists svc w1,
        getLLMService host w = (Returns svc, w1)
        /\ provider host (getModel host svc (modelOf config))
             (turnInput host state config) = Throws e).
Proof.
  intros H. destruct (getLLMService host w) as [[svc|e0] w1] eqn:Hsvc.
  - right. exists svc, w1. split; [reflexivity |].
    rewrite (conversationNode_run host state config w w1 svc Hsvc) in H.
    destruct (provider host _ _) as [r|e1]; [discriminate |].
    cbn in H. congruence.
  - left. exists w1.
    rewrite (conversationNode_unresolved host state config w w1 e0 Hsvc) in H.
    cbn in H. congruence.
Qed.

Lemma X7_witness_provider_error :
  exists svc w1,
    getLLMService Fixture.providerDown initialWorld = (Returns svc, w1)
    /\ provider Fixture.providerDown
         (getModel Fixture.providerDown svc
            (modelOf (Fixture.bareConfig (Some Fixture.storeDown))))
         (turnInput Fixture.providerDown
            (Fixture.stateOf [Fixture.says human "hello"])
            (Fixture.bareConfig (Some Fixture.storeDown)))
       = Throws (Error "503 Service Unavailable").
Proof.
  destruct (X7_turn_fails_only_on_llm Fixture.providerDown
              (Fixture.stateOf [Fixture.says human "hello"])
              (Fixture.bareConfig (Some Fixture.storeDown)) initialWorld
              (Error "503 Service Unavailable") eq_refl) as [[w1 H] | H].
  - discriminate H.
  - exact H.
Defined.

(* ===================================================================== *)
(** ** What is written and what is read back *)
(* ===================================================================== *)

Lemma policyFires_content_nonempty (state : AgentStateType)
    (config : LangGraphRunnableConfig) :
  policyFires state config = true -> examinedContent (messages state) <> "".
Proof.
  unfold policyFires. destruct (store config); [| discriminate].
  intros H E. rewrite E in H. discriminate.
Qed.

(** X8. What the write policy stores is what retrieval reads: when a turn
    adds a [put], the item it wrote holds the examined content verbatim, and
    a later turn whose search returns that item gets the memory text
    ["- " ++ content] and a system message that ends with the memory header
    and that bullet. *)
Theorem X8_written_memory_reads_back
    (host : Host) (state : AgentStateType) (config : LangGraphRunnableConfig)
    (w : World) (namespace : list string) (key : string) (item : MemoryItem)
    (later : LangGraphRunnableConfig) (st : BaseStore)
    (profile : option Patient) :
  putsOf (trace (snd (storeMemory host state config
                                  (resolveClientId config) w)))
  = (putsOf (trace w) ++ [(namespace, key, item)])%list ->
  store later = Some st ->
  search st ["memories"; resolveClientId later] 10
  = Returns (Some [ {| value := Some item |} ]) ->
  text item = examinedContent (messages state)
  /\ retrievedText later = "- " ++ examinedContent (messages state)
  /\ systemPromptText host (Some (retrievedText later)) profile
                      (systemPromptOf later)
     = getSystemPrompt host (systemPromptOf later)
       ++ Spec.profileBlock profile
       ++ Spec.memoryHeader ++ "- " ++ examinedContent (messages state).
Proof.
  intros Hput Hst Hsearch. rewrite storeMemory_puts in Hput.
  apply app_inv_head in Hput.
  destruct (policyFires state config) eqn:F; [| discriminate].
  injection Hput as _ _ <-. cbn [text].
  pose proof (policyFires_content_nonempty state config F) as Hne.
  apply eqb_empty_false in Hne.
  assert (Hret : retrievedText later
                 = "- " ++ examinedContent (messages state)).
  { unfold retrievedText, getMemoryNamespace. rewrite Hst, Hsearch.
    cbn [List.length Nat.ltb Nat.leb].
    rewrite formatMemories_memoryText. unfold Spec.memoryText.
    cbn [Spec.survivors text]. rewrite Hne. reflexivity. }
  split; [reflexivity | split; [assumption |]].
  rewrite Hret, systemPromptText_systemText, getSystemPrompt_effective.
  reflexivity.
Qed.

Lemma X8_witness_tea_reads_back :
  retrievedText
    (Fixture.configFor (Some "c1")
       (Some (Fixture.storeWith
          [ {| value :=
                 Some {| text := "Please remember I like tea";
                         createdAt := "2023-11-14T22:13:20.001Z" |} |} ])))
  = "- Please remember I like tea".
Proof.
  destruct (X8_written_memory_reads_back Fixture.answering
     (Fixture.stateOf [Fixture.says human "Please remember I like tea"])
     (Fixture.configFor (Some "c1") (Some (Fixture.storeWith [])))
     initialWorld ["memories"; "c1"] "mem_1700000000000"
     {| text := "Please remember I like tea";
        createdAt := "2023-11-14T22:13:20.001Z" |}
     (Fixture.configFor (Some "c1")
        (Some (Fixture.storeWith
           [ {| value :=
                  Some {| text := "Please remember I like tea";
                          createdAt := "2023-11-14T22:13:20.001Z" |} |} ])))
     (Fixture.storeWith
        [ {| value :=
               Some {| text := "Please remember I like tea";
                       createdAt := "2023-11-14T22:13:20.001Z" |} |} ])
     None eq_refl eq_refl eq_refl) as (_ & H & _).
  exact H.
Defined.

Lemma to_int_proper (z : Z) :
  Z.to_int z <> Decimal.Pos Decimal.Nil /\ Z.to_int z <> Decimal.Neg Decimal.Nil.
Proof.
  destruct z as [|p|p]; cbn; split; try discriminate;
    intros H; injection H as H;
    now apply DecimalPos.Unsigned.to_uint_nonnil in H.
Qed.

Lemma numberToString_inj (a b : Z) :
  Js.numberToString a = Js.numberToString b -> a = b.
Proof.
  unfold Js.numberToString. intros H.
  apply (f_equal NilZero.int_of_string) in H.
  destruct (to_int_proper a) as [Ha1 Ha2].
  destruct (to_int_proper b) as [Hb1 Hb2].
  rewrite !NilZero.isi in H by assumption.
  injection H as H. now apply DecimalZ.to_int_inj.
Qed.

(** X9. The key of a memory is decided by the clock reading alone: two
    writes get the same key exactly when their clock readings are the same
    millisecond, whatever the client and the content.  Two memories of one
    client written in the same millisecond therefore share their key. *)
Theorem X9_memory_keys_collide_iff_same_millisecond
    (host : Host) (client1 client2 content1 content2 : string) (n m : nat) :
  snd (fst (policyPut host client1 content1 n))
  = snd (fst (policyPut host client2 content2 m))
  <-> clock host n = clock host m.
Proof.
  unfold policyPut. cbn [fst snd]. split.
  - intros H. injection H as H. now apply numberToString_inj.
  - now intros ->.
Qed.

Lemma survivors_app (a b : list SearchItem) :
  Spec.survivors (a ++ b)%list
  = (Spec.survivors a ++ Spec.survivors b)%list.
Proof.
  induction a as [|[[it|]] a IH]; cbn; [reflexivity | | assumption].
  destruct (text it =? ""); [assumption | cbn; now rewrite IH].
Qed.

Lemma join_app (sep x y : string) (xs ys : list string) :
  Js.join sep ((x :: xs) ++ y :: ys)%list
  = Js.join sep (x :: xs) ++ sep ++ Js.join sep (y :: ys).
Proof.
  revert x. induction xs as [|z zs IH]; intros x; [reflexivity |].
  change (Js.join sep ((x :: z :: zs) ++ y :: ys)%list)
    with (x ++ sep ++ Js.join sep ((z :: zs) ++ y :: ys)%list).
  rewrite IH. change (Js.join sep (x :: z :: zs))
    with (x ++ sep ++ Js.join sep (z :: zs)).
  now rewrite !append_assoc.
Qed.

Lemma survivors_nil_iff (items : list SearchItem) :
  Spec.survivors items = []
  <-> forall m, In m items ->
        value m = None \/ exists it, value m = Some it /\ text it = "".
Proof.
  induction items as [|[[it|]] rest IH]; cbn.
  - split; [intros _ m [] | reflexivity].
  - destruct (text it =? "") eqn:E.
    + apply String.eqb_eq in E. rewrite IH. split.
      * intros H m [<- | Hm]; [right; now exists it | now apply H].
      * intros H m Hm. apply H. now right.
    + apply String.eqb_neq in E. split; [discriminate |].
      intros H. destruct (H _ (or_introl eq_refl)) as [H0 | [it' [H0 H1]]];
        cbn in H0; [discriminate |].
      injection H0 as <-. contradiction.
  - rewrite IH. split.
    + intros H m [<- | Hm]; [now left | now apply H].
    + intros H m Hm. apply H. now right.
Qed.

(** X10. The memory text of two result lists put end to end is the two
    texts on separate lines, and just the other one when one of them is
    empty: no blank bullet and no stray separator can come from an empty
    batch.  The text is empty exactly when every item has no value or an
    empty text. *)
Theorem X10_memory_text_of_concatenation (a b : list SearchItem) :
  formatMemories (a ++ b)%list
  = (if formatMemories a =? "" then formatMemories b
     else if formatMemories b =? "" then formatMemories a
     else formatMemories a ++ Js.LF ++ formatMemories b)
  /\ (formatMemories a = ""
      <-> forall m, In m a ->
            value m = None \/ exists it, value m = Some it /\ text it = "").
Proof.
  rewrite !formatMemories_memoryText. unfold Spec.memoryText. split.
  - rewrite survivors_app.
    destruct (Spec.survivors a) as [|x xs]; [reflexivity |].
    destruct (Spec.survivors b) as [|y ys].
    + now rewrite app_nil_r.
    + cbn [app].
      change (x :: xs ++ y :: ys)%list with ((x :: xs) ++ y :: ys)%list.
      rewrite join_app. cbn [String.eqb append Ascii.eqb].
      now rewrite !append_assoc.
  - rewrite <- survivors_nil_iff.
    destruct (Spec.survivors a); split; (reflexivity || discriminate).
Qed.

(* ===================================================================== *)
(** ** The client id, given *)
(* ===================================================================== *)

(** X11. A client id given in the configuration is used as it is for the
    memory namespace, the empty string included: only a missing id becomes
    "default".  The two nodes part ways on the empty string: the
    conversation node searches and writes under [["memories"; ""]], the
    profile-fetch node treats it as no id and makes no lookup. *)
Theorem X11_given_client_id_used_verbatim
    (host : Host) (state : AgentStateType) (config : LangGraphRunnableConfig)
    (w : World) (cid : string) :
  clientIdOf config = Some cid ->
  resolveClientId config = cid
  /\ (forall w0,
        searchesOf (trace (snd (retrieveMemories config
                                  (resolveClientId config) w0)))
        = (searchesOf (trace w0)
           ++ match store config with
              | Some _ => [(["memories"; cid], 10)]
              | None => []
              end)%list)
  /\ (cid = "" ->
      fst (fetchUserNode host state config w) = Returns emptyUpdate
      /\ trace (snd (fetchUserNode host state config w)) = trace w).
Proof.
  intros Hcid.
  assert (Hres : resolveClientId config = cid).
  { unfold resolveClientId. unfold clientIdOf in Hcid. now rewrite Hcid. }
  split; [assumption | split].
  - intros w0. rewrite retrieveMemories_run. cbn [snd after trace].
    now rewrite searchesOf_app, searchesOf_searchEvents, Hres.
  - intros ->. unfold clientIdOf in Hcid.
    destruct (getSembleService_returns host w) as (s & w2 & Hs & Ht).
    assert (Hrun : fetchUserNode host state config w
                   = (Returns emptyUpdate, w2)).
    { unfold fetchUserNode, bind. rewrite Hs, Hcid. reflexivity. }
    rewrite Hrun. split; [reflexivity | exact Ht].
Qed.

Lemma X11_witness_empty_client_id :
  resolveClientId (Fixture.configFor (Some "") None) = ""
  /\ fst (fetchUserNode Fixture.answering (Fixture.stateOf [])
            (Fixture.configFor (Some "") None) initialWorld)
     = Returns emptyUpdate.
Proof.
  destruct (X11_given_client_id_used_verbatim Fixture.answering
              (Fixture.stateOf []) (Fixture.configFor (Some "") None)
              initialWorld "" eq_refl) as (H1 & _ & H3).
  split; [exact H1 | apply H3; reflexivity].
Defined.

(* ===================================================================== *)
(** ** [createLLM] and the previous conversation node *)
(* ===================================================================== *)

Lemma createLLM_default_iff (host : Host) (m : ChatOpenAI) :
  Llm.createLLM host None = Returns m
  <-> exists svc,
        newOpenRouterLLMService host = Returns svc
        /\ getModel host svc None = m.
Proof.
  unfold Llm.createLLM, newOpenRouterLLMService, getModel.
  cbn [coalesce].
  destruct (OPENROUTER_API_KEY (env host)) as [k|]; cbn.
  - destruct (k =? ""); cbn.
    + split; [discriminate | intros [svc [H _]]; discriminate].
    + split.
      * intros H. injection H as <-. eexists. split; reflexivity.
      * intros [svc [H <-]]. injection H as <-. reflexivity.
  - split; [discriminate | intros [svc [H _]]; discriminate].
Qed.

(** X12. A model [createLLM] returns always carries a non-empty key: the
    one of the configuration when it names one, else the one of the
    environment.  An empty key in the configuration is not passed over for
    the environment's: the call throws even when [OPENROUTER_API_KEY] is set.
    Called without a configuration, [createLLM] returns exactly the model the
    LLM service built from the same environment resolves without a model
    name. *)
Theorem X12_createLLM_key_and_agreement (host : Host) :
  (forall config m,
     Llm.createLLM host config = Returns m ->
     chat_apiKey m <> ""
     /\ coalesce (match config with
                  | Some c => Llm.apiKey c
                  | None => None
                  end)
                 (OPENROUTER_API_KEY (env host))
        = Some (chat_apiKey m))
  /\ (forall c,
        Llm.apiKey c = Some "" ->
        exists e, Llm.createLLM host (Some c) = Throws e)
  /\ (forall m,
        Llm.createLLM host None = Returns m
        <-> exists svc,
              newOpenRouterLLMService host = Returns svc
              /\ getModel host svc None = m).
Proof.
  split; [| split].
  - intros config m. unfold Llm.createLLM.
    destruct (coalesce _ _) as [k|]; cbn; [| discriminate].
    destruct (k =? "") eqn:E; cbn; [discriminate |].
    intros H. injection H as <-. cbn.
    split; [now apply eqb_empty_false | reflexivity].
  - intros c Hc. unfold Llm.createLLM. rewrite Hc. cbn. now eexists.
  - apply createLLM_default_iff.
Qed.

Lemma X12_witness_empty_key_shadows_environment :
  exists e,
    Llm.createLLM Fixture.answering
      (Some {| Llm.modelName := None; Llm.apiKey := Some "";
               Llm.baseURL := None |})
    = Throws e.
Proof.
  destruct (X12_createLLM_key_and_agreement Fixture.answering)
    as (_ & H & _).
  apply H. reflexivity.
Defined.

(** The previous node, run once its model is built. *)
Lemma Previous_conversationNode_run (host : Host) (state : AgentStateType)
    (config : LangGraphRunnableConfig) (w : World) (llm : ChatOpenAI) :
  Llm.createLLM host None = Returns llm ->
  let input :=
    Previous.createSystemMessage host (Some (retrievedText config))
      :: messages state in
  Previous.conversationNode host state config w
  = match provider host llm input with
    | Returns r =>
        (Returns {| upd_messages := Some [r]; upd_user := None |},
         after w (policyReads state config)
           (searchEvents config ++ [LlmInvoke llm input]
              ++ policyEvents host state config (clockReads w))%list)
    | Throws e =>
        (Throws e, after w 0 (searchEvents config ++ [LlmInvoke llm input])%list)
    end.
Proof.
  intros Hllm input. unfold Previous.conversationNode.
  unfold bind at 1, complete. rewrite Hllm.
  unfold bind at 1. rewrite retrieveMemories_run. fold input.
  unfold bind at 1, invoke, bind at 1, emit, complete. cbn [fst snd].
  destruct (provider host llm input) as [r|e].
  - unfold bind at 1. rewrite storeMemory_run. unfold ret.
    f_equal. unfold after. cbn. f_equal; [lia |].
    now rewrite Nat.add_0_r, <- !app_assoc.
  - f_equal. unfold after. cbn. f_equal. now rewrite <- app_assoc.
Qed.

(** X13. The current conversation node agrees with the revision before it
    wherever that one applies: with no profile in the state, no model and no
    system-prompt override, and an empty registry, both return the same
    update or throw the same provider error, after the same outside calls and
    clock readings, provided the credential is set.  Without the credential
    both fail before any outside call.  The system message of the previous
    revision is the current one without profile and override. *)
Theorem X13_previous_revision_agrees
    (host : Host) (state : AgentStateType) (config : LangGraphRunnableConfig)
    (w : World) :
  user state = None ->
  modelOf config = None ->
  systemPromptOf config = None ->
  llmService w = None ->
  let old := Previous.conversationNode host state config w in
  let new := conversationNode host state config w in
  (Js.truthy (OPENROUTER_API_KEY (env host)) = true ->
   fst old = fst new
   /\ trace (snd old) = trace (snd new)
   /\ clockReads (snd old) = clockReads (snd new))
  /\ (Js.truthy (OPENROUTER_API_KEY (env host)) = false ->
      (exists e, fst old = Throws e) /\ (exists e, fst new = Throws e)
      /\ trace (snd old) = trace w /\ trace (snd new) = trace w)
  /\ (forall memories,
        Previous.createSystemMessage host memories
        = createSystemMessage host memories None None).
Proof.
  intros Hu Hm Hp Hw. cbn zeta.
  assert (Hsys : forall memories,
            Previous.createSystemMessage host memories
            = createSystemMessage host memories None None) by reflexivity.
  split; [| split; [| exact Hsys]].
  - intros Hkey.
    destruct (newOpenRouterLLMService host) as [svc|e] eqn:Hnew.
    2:{ unfold newOpenRouterLLMService in Hnew. rewrite Hkey in Hnew.
        discriminate. }
    assert (Hllm : Llm.createLLM host None = Returns (getModel host svc None)).
    { apply createLLM_default_iff. now exists svc. }
    assert (Hsvc : getLLMService host w
                   = (Returns svc,
                      {| sembleService := sembleService w;
                         llmService := Some svc;
                         clockReads := clockReads w; trace := trace w |})).
    { unfold getLLMService, createLLMService. now rewrite Hw, Hnew. }
    rewrite (Previous_conversationNode_run host state config w _ Hllm).
    rewrite (conversationNode_run host state config w _ svc Hsvc).
    unfold turnInput. rewrite Hm, Hp, Hu, <- Hsys.
    destruct (provider host _ _) as [r|e]; cbn; auto.
  - intros Hkey.
    assert (Hold : Previous.conversationNode host state config w
                   = (Throws (Error "OpenRouter API key is required. Set OPENROUTER_API_KEY environment variable or pass apiKey in config."), w)).
    { unfold Previous.conversationNode, bind at 1, complete, Llm.createLLM.
      cbn [coalesce]. now rewrite Hkey. }
    assert (Hnew : conversationNode host state config w
                   = (Throws (Error "OPENROUTER_API_KEY environment variable is required."), w)).
    { apply conversationNode_unresolved.
      unfold getLLMService, createLLMService, newOpenRouterLLMService.
      now rewrite Hw, Hkey. }
    rewrite Hold, Hnew. cbn. repeat split; now eexists.
Qed.

Lemma X13_witness_same_turn :
  fst (Previous.conversationNode Fixture.answering
         (Fixture.stateOf [Fixture.says human "remember tea"])
         (Fixture.configFor (Some "c1") (Some (Fixture.storeWith [])))
         initialWorld)
  = fst (conversationNode Fixture.answering
           (Fixture.stateOf [Fixture.says human "remember tea"])
           (Fixture.configFor (Some "c1") (Some (Fixture.storeWith [])))
           initialWorld).
Proof.
  destruct (X13_previous_revision_agrees Fixture.answering
              (Fixture.stateOf [Fixture.says human "remember tea"])
              (Fixture.configFor (Some "c1") (Some (Fixture.storeWith [])))
              initialWorld eq_refl eq_refl eq_refl eq_refl) as (H & _).
  destruct (H eq_refl) as (Hres & _). exact Hres.
Defined.

(* ===================================================================== *)
(** ** The profile channel over a run of updates *)
(* ===================================================================== *)

Lemma userAfter_lastProfile (x : option Patient)
    (writes : list (option Patient)) :
  userAfter x writes
  = match lastProfile writes with
    | Some p => Some p
    | None => x
    end.
Proof.
  unfold userAfter. revert x.
  induction writes as [|y rest IH]; intros x; cbn; [reflexivity |].
  rewrite IH. destruct (lastProfile rest); [reflexivity |].
  now destruct y.
Qed.

(** X14. Through its reducer [(x, y) => y ?? x] the profile channel holds,
    after any run of writes, the profile of the most recent write that
    carried one, and its first value when none did.  A write of [null] never
    clears a profile: once the channel holds one it holds one ever after. *)
Theorem X14_profile_last_write_wins
    (x : option Patient) (writes : list (option Patient)) :
  userAfter x writes
  = match lastProfile writes with
    | Some p => Some p
    | None => x
    end
  /\ (forall p, userAfter x (writes ++ [Some p])%list = Some p)
  /\ userAfter x (writes ++ [None])%list = userAfter x writes
  /\ (x <> None -> userAfter x writes <> None).
Proof.
  split; [apply userAfter_lastProfile | split; [| split]].
  - intros p. unfold userAfter. now rewrite fold_left_app.
  - unfold userAfter. rewrite fold_left_app. cbn.
    now destruct (fold_left userReducer writes x).
  - intros Hx. rewrite userAfter_lastProfile.
    now destruct (lastProfile writes).
Qed.

Lemma X14_witness_profile_survives_null :
  userAfter (Some Fixture.jane) [None; None] <> None.
Proof.
  destruct (X14_profile_last_write_wins (Some Fixture.jane) [None; None])
    as (_ & _ & _ & H).
  apply H. discriminate.
Defined.

(* ===================================================================== *)
(** ** The first agent *)
(* ===================================================================== *)

Lemma orElse_nonempty (a : option string) (b : string) :
  b <> "" -> orElse a b <> "".
Proof.
  intros Hb. unfold orElse. destruct a as [s|]; cbn; [| assumption].
  destruct (s =? "") eqn:E; cbn; [assumption | now apply eqb_empty_false].
Qed.

(** X15. The first agent read its settings through [||], so it never ran
    with an empty system prompt or an empty model name: an empty
    [SYSTEM_PROMPT] or [MODEL_NAME] counted as unset.  The current
    [getSystemPrompt] reads through [??] and agrees with it except on an
    empty [SYSTEM_PROMPT], which it returns as the prompt.  The first agent
    chose Anthropic exactly when [MODEL_PROVIDER] was "anthropic". *)
Theorem X15_first_agent_settings :
  (forall sp, FirstAgent.getSystemPrompt sp <> "")
  /\ (forall host,
        SYSTEM_PROMPT (env host) <> Some "" ->
        getSystemPrompt host None
        = FirstAgent.getSystemPrompt (SYSTEM_PROMPT (env host)))
  /\ (forall host,
        SYSTEM_PROMPT (env host) = Some "" ->
        getSystemPrompt host None = "")
  /\ (forall provider name,
        FirstAgent.modelNameOf (FirstAgent.createLLM provider name) <> "")
  /\ (forall provider name,
        (exists n, FirstAgent.createLLM provider name
                   = FirstAgent.ChatAnthropic n)
        <-> provider = Some "anthropic").
Proof.
  split; [| split; [| split; [| split]]].
  - intros sp. now apply orElse_nonempty.
  - intros host H. unfold getSystemPrompt, FirstAgent.getSystemPrompt, orElse.
    destruct (SYSTEM_PROMPT (env host)) as [s|]; cbn; [| reflexivity].
    destruct (s =? "") eqn:E; cbn; [| reflexivity].
    apply String.eqb_eq in E. congruence.
  - intros host H. unfold getSystemPrompt. now rewrite H.
  - intros provider name. unfold FirstAgent.createLLM.
    destruct (orElse provider "openai" =? "anthropic"); cbn;
      now apply orElse_nonempty.
  - intros provider name. unfold FirstAgent.createLLM.
    destruct (orElse provider "openai" =? "anthropic") eqn:E.
    + apply String.eqb_eq in E. split; [intros _ | now eexists].
      unfold orElse in E. destruct provider as [s|]; cbn in E;
        [| discriminate].
      destruct (s =? ""); cbn in E; [discriminate | now rewrite E].
    + split; [intros [n H]; discriminate |].
      intros ->. discriminate.
Qed.

Lemma X15_witness_empty_prompt :
  getSystemPrompt
    {| env := {| OPENROUTER_API_KEY := Some "sk-test";
                 OPENROUTER_BASE_URL := None; MODEL_NAME := None;
                 SYSTEM_PROMPT := Some ""; USE_MOCK_SEMBLE := None |};
       clock := fun _ => 0%Z;
       toISOString := Fixture.isoOf;
       provider := fun _ _ => Returns Fixture.reply |} None
  = "".
Proof.
  destruct X15_first_agent_settings as (_ & _ & H & _).
  apply H. reflexivity.
Defined.

(* ===================================================================== *)
(** ** The database setup script *)
(* ===================================================================== *)

(** X16. The setup script touches nothing and exits with code 1 when
    [DATABASE_URL] is unset or empty.  Otherwise its steps, in order, are
    the checkpointer's set-up and then, only if that one returned, the
    store's, both with the connection string of the variable: the store's
    set-up is never the first step and nothing follows it.  The script ends
    without an exit code exactly when both set-ups return, and exits with
    code 1 in every other case. *)
Theorem X16_setup_script (url : option string) (pg : Migrate.Postgres) :
  let outcome := fst (Migrate.setup url pg) in
  let steps := snd (Migrate.setup url pg) in
  (Js.truthy url = false -> outcome = Migrate.Exit 1 /\ steps = [])
  /\ (forall conn,
        url = Some conn -> conn <> "" ->
        steps
        = Migrate.CheckpointerSetup conn
          :: match Migrate.checkpointerSetup pg conn with
             | Returns _ => [Migrate.StoreSetup conn]
             | Throws _ => []
             end
        /\ (outcome = Migrate.Finished
            <-> Migrate.checkpointerSetup pg conn = Returns tt
                /\ Migrate.storeSetup pg conn = Returns tt)
        /\ (outcome <> Migrate.Finished -> outcome = Migrate.Exit 1))
  /\ (forall conn before rest,
        steps = (before ++ Migrate.StoreSetup conn :: rest)%list ->
        before = [Migrate.CheckpointerSetup conn]
        /\ rest = []
        /\ url = Some conn
        /\ Migrate.checkpointerSetup pg conn = Returns tt).
Proof.
  cbn zeta. unfold Migrate.setup. split; [| split].
  - intros H. rewrite H. cbn. now split.
  - intros conn -> Hne. apply eqb_empty_false in Hne.
    cbn [Js.truthy Js.nullish]. rewrite Hne. cbn [negb].
    destruct (Migrate.checkpointerSetup pg conn) as [[]|e1].
    + destruct (Migrate.storeSetup pg conn) as [[]|e2]; cbn.
      * split; [reflexivity | split; [now split | congruence]].
      * split; [reflexivity | split; [| now intros _]].
        split; [discriminate | intros [_ H]; discriminate].
    + cbn. split; [reflexivity | split; [| now intros _]].
      split; [discriminate | intros [H _]; discriminate].
  - intros conn before rest.
    destruct url as [c|]; cbn;
      [| intros H; now destruct before].
    destruct (c =? "") eqn:E; cbn; [intros H; now destruct before |].
    assert (Hshape :
      forall steps : list Migrate.Step,
        steps = [Migrate.CheckpointerSetup c; Migrate.StoreSetup c] ->
        steps = (before ++ Migrate.StoreSetup conn :: rest)%list ->
        before = [Migrate.CheckpointerSetup conn] /\ rest = []
        /\ Some c = Some conn).
    { intros steps -> H.
      destruct before as [|b0 [|b1 before]]; cbn in H.
      - discriminate.
      - injection H as <- <- <-. auto.
      - injection H as _ _ H. now destruct before. }
    destruct (Migrate.checkpointerSetup pg c) as [[]|e1] eqn:H1.
    + destruct (Migrate.storeSetup pg c) as [[]|e2]; cbn; intros H;
        destruct (Hshape _ eq_refl H) as (Hb & Hr & Hc);
        injection Hc as <-; auto.
    + cbn. intros H. destruct before as [|b0 [|b1 before]]; cbn in H;
        discriminate.
Qed.

(** The checkpointer's set-up returns, the store's throws: the script ran
    both, in that order, and exited with code 1. *)
Lemma X16_witness_store_after_checkpointer :
  snd (Migrate.setup (Some "postgresql://localhost:5432/langgraph")
         {| Migrate.checkpointerSetup := fun _ => Returns tt;
            Migrate.storeSetup :=
              fun _ => Throws (Error "permission denied") |})
  = [Migrate.CheckpointerSetup "postgresql://localhost:5432/langgraph";
     Migrate.StoreSetup "postgresql://localhost:5432/langgraph"]
  /\ fst (Migrate.setup (Some "postgresql://localhost:5432/langgraph")
            {| Migrate.checkpointerSetup := fun _ => Returns tt;
               Migrate.storeSetup :=
                 fun _ => Throws (Error "permission denied") |})
     = Migrate.Exit 1.
Proof.
  destruct (X16_setup_script
              (Some "postgresql://localhost:5432/langgraph")
              {| Migrate.checkpointerSetup := fun _ => Returns tt;
                 Migrate.storeSetup :=
                   fun _ => Throws (Error "permission denied") |})
    as (_ & H & _).
  destruct (H "postgresql://localhost:5432/langgraph" eq_refl)
    as (Hsteps & _ & Hexit); [discriminate |].
  split; [exact Hsteps | apply Hexit; discriminate].
Defined.
